(** * Neo4j perceptron: the perception store and its trainer

    A shallow embedding of [perceptron/neo4j_perceptron.py].

    The Python program keeps its whole state in a Neo4j database and talks to
    it through three Cypher statements.  The embedding therefore has three
    layers:

    - [Py]: the handful of Python run-time operations the trainer relies on
      ([sum], [len], [/], exceptions);
    - [Cypher]: the expression language used inside the statements (null
      propagation, [range], list indexing, [reduce], [ORDER BY ... DESC],
      [LIMIT]);
    - [PerceptionStore] and [PerceptionTrainer]: the two classes, written in a
      state-and-exception monad over the property graph.

    Numbers are IEEE 754 binary64 on both sides of the driver (Python [float],
    Cypher [FLOAT]); they are modelled by Rocq's primitive floats.  The
    driver and the database are taken to be reachable: connection failures
    and console output are outside the model. *)

From Stdlib Require Import List ZArith Lia Bool String Ascii.
From Stdlib Require Import Permutation Sorted.
From Stdlib Require Import Floats.
Import ListNotations.

Set Warnings "-inexact-float".

Local Open Scope string_scope.
Local Open Scope list_scope.
Local Open Scope Z_scope.

(* ================================================================== *)
(** * Python run-time *)
(* ================================================================== *)

Module Py.

(** An exception, identified by the name of its class. *)
Definition exn := string.

Definition ZeroDivisionError : exn := "ZeroDivisionError".

(** Outcome of a Python call: a value, or a raised exception. *)
Inductive result (A : Type) : Type :=
| Ok (a : A)
| Raise (e : exn).
Arguments Ok {A} a.
Arguments Raise {A} e.

(** A number as [sum] sees it: the start value is the [int] 0, and it turns
    into a [float] as soon as a float is added. *)
Inductive num : Type :=
| Int (i : Z)
| Float (f : float).

(** [float(i)]: the binary64 nearest to the integer [i]. *)
Definition float_of_int (i : Z) : float :=
  SF2Prim (binary_normalize prec emax i 0 false).

(** [acc + x] for a float [x]. *)
Definition add (acc : num) (x : float) : num :=
  match acc with
  | Int i => Float (float_of_int i + x)
  | Float a => Float (a + x)
  end.

(** [sum(xs)]: left to right, from the integer 0.  Recent interpreters
    compensate the rounding error of a float sum; on the scores 0.0 and 1.0
    that [test] adds up every partial sum is exact, so the plain sum is the
    same number. *)
Definition sum (xs : list float) : num := fold_left add xs (Int 0).

(** [len(xs)]. *)
Definition len {A : Type} (xs : list A) : Z := Z.of_nat (List.length xs).

(** [a / n] for an integer [n]: true division, which raises on a zero
    divisor whatever the dividend is.  The only integer dividend [sum] can
    produce is 0. *)
Definition truediv (a : num) (n : Z) : result float :=
  if n =? 0 then Raise ZeroDivisionError
  else match a with
       | Int i => Ok (float_of_int i / float_of_int n)%float
       | Float f => Ok (f / float_of_int n)%float
       end.

(** [x in xs] for a list of strings. *)
Definition contains (xs : list string) (x : string) : bool :=
  existsb (String.eqb x) xs.

End Py.

(* ================================================================== *)
(** * Cypher expressions and clauses *)
(* ================================================================== *)

Module Cypher.

(** A possibly-null float: [None] is Cypher's [null]. *)
Definition value := option float.

(** Arithmetic propagates null. *)
Definition add (a b : value) : value :=
  match a, b with
  | Some x, Some y => Some (x + y)%float
  | _, _ => None
  end.

Definition mul (a b : value) : value :=
  match a, b with
  | Some x, Some y => Some (x * y)%float
  | _, _ => None
  end.

(** [a > b]: null when either side is null, and the IEEE 754 comparison
    otherwise, so that NaN is above nothing. *)
Definition gt (a b : value) : option bool :=
  match a, b with
  | Some x, Some y => Some (y <? x)%float
  | _, _ => None
  end.

(** [WHERE] keeps a row only when its predicate is [true]; [false] and
    [null] both drop it. *)
Definition where_keeps (c : option bool) : bool :=
  match c with
  | Some true => true
  | _ => false
  end.

(** [size(l)]. *)
Definition size {A : Type} (l : list A) : Z := Z.of_nat (List.length l).

(** [range(a, b)]: the integers from [a] to [b], both included; empty when
    [b < a]. *)
Definition range (a b : Z) : list Z :=
  map (fun k => a + Z.of_nat k) (seq 0 (Z.to_nat (b - a + 1))).

(** [l[i]]: null outside the list; a negative index counts from the end. *)
Definition index {A : Type} (l : list A) (i : Z) : option A :=
  if 0 <=? i then nth_error l (Z.to_nat i)
  else if 0 <=? size l + i then nth_error l (Z.to_nat (size l + i))
  else None.

(** [reduce(acc = init, x IN l | f acc x)]. *)
Definition reduce {A B : Type} (init : A) (l : list B) (f : A -> B -> A) : A :=
  fold_left f l init.

(** [ORDER BY key DESC] on rows whose key is a float.  The sort is an
    insertion sort that leaves rows with equal keys in their incoming
    order; the theorems below only rely on the result being a descending
    rearrangement of the rows. *)
Section OrderBy.
Context {R : Type} (key : R -> float).

Fixpoint insert_desc (r : R) (sorted : list R) : list R :=
  match sorted with
  | [] => [r]
  | r' :: rest =>
      if (key r <? key r')%float then r' :: insert_desc r rest
      else r :: sorted
  end.

Definition order_by_desc (rows : list R) : list R :=
  fold_right insert_desc [] rows.
End OrderBy.

(** [LIMIT n]. *)
Definition limit {R : Type} (n : nat) (rows : list R) : list R := firstn n rows.

End Cypher.

(* ================================================================== *)
(** * The property graph *)
(* ================================================================== *)

(** A [:Perception] node with the four properties [store_perception] gives it.
    [activation_count] is a Cypher INTEGER; it only ever grows by one per
    query, so its 64-bit ceiling is out of reach and it is modelled in [Z]. *)
Record Perception : Type := mkPerception {
  bundle_id : string;
  embedding : list float;
  activation_count : Z;
  confidence : float
}.

(** A [:RELATES] relationship.  Nodes are never deleted by the program, so a
    node is identified by its position in creation order. *)
Record Relates : Type := mkRelates {
  start_node : nat;
  end_node : nat;
  rel_weight : float
}.

(** The database: nodes in creation order, and relationships in creation
    order. *)
Record graph : Type := mkGraph {
  nodes : list Perception;
  relationships : list Relates
}.

Definition empty_graph : graph := mkGraph [] [].

(** One entry of the [relations] argument: [{'target': ..., 'weight': ...}]. *)
Record relation : Type := mkRelation {
  target : string;
  weight : float
}.

(** One entry of the list returned by [activate_perceptions]:
    [{'bundle_id': ..., 'similarity': ...}]. *)
Record memory : Type := mkMemory {
  memory_bundle_id : string;
  similarity : float
}.

(* ================================================================== *)
(** * State and exceptions *)
(* ================================================================== *)

(** A method call: it runs against the database and either returns or raises,
    leaving a database behind in both cases. *)
Definition M (A : Type) : Type := graph -> Py.result A * graph.

Definition ret {A : Type} (a : A) : M A := fun g => (Py.Ok a, g).

Definition bind {A B : Type} (m : M A) (k : A -> M B) : M B :=
  fun g =>
    match m g with
    | (Py.Ok a, g') => k a g'
    | (Py.Raise e, g') => (Py.Raise e, g')
    end.

(** A pure Python computation that may raise. *)
Definition lift {A : Type} (r : Py.result A) : M A := fun g => (r, g).

(** A Cypher statement that updates the graph and returns rows. *)
Definition run {A : Type} (stmt : graph -> A * graph) : M A :=
  fun g => let (a, g') := stmt g in (Py.Ok a, g').

Declare Scope py_scope.
Delimit Scope py_scope with py.
Notation "x <- m ;; k" := (bind m (fun x => k))
  (at level 61, m at next level, right associativity) : py_scope.
Notation "m ;; k" := (bind m (fun _ => k))
  (at level 61, right associativity) : py_scope.

(** Result and final database of a call. *)
Definition outcome {A : Type} (m : M A) (g : graph) : Py.result A := fst (m g).
Definition final {A : Type} (m : M A) (g : graph) : graph := snd (m g).

(* ================================================================== *)
(** * class PerceptionStore *)
(* ================================================================== *)

Module PerceptionStore.

Local Open Scope py_scope.

(** Nodes paired with their positions, as a [MATCH (p:Perception)] scan
    produces them. *)
Definition scan (ns : list Perception) : list (nat * Perception) :=
  combine (seq 0 (List.length ns)) ns.

(** [MATCH (p:Perception {bundle_id: $id})]: the positions of all nodes
    carrying that [bundle_id]. *)
Definition match_bundle_id (id : string) (ns : list Perception) : list nat :=
  map fst (filter (fun ip => String.eqb (bundle_id (snd ip)) id) (scan ns)).

(** Step 1 of [store_perception]:
    [CREATE (p:Perception {bundle_id: $bundle_id, embedding: $embedding,
                           activation_count: 0, confidence: 0.5})]. *)
Definition create_perception (id : string) (embeddings : list float)
    (g : graph) : unit * graph :=
  (tt, mkGraph (nodes g ++ [mkPerception id embeddings 0 0.5%float])
               (relationships g)).

(** Step 2 of [store_perception], for one relation:
    [MATCH (p1:Perception {bundle_id: $bundle_id})
     MATCH (p2:Perception {bundle_id: $target})
     CREATE (p1)-[:RELATES {weight: $weight}]->(p2)].
    One relationship is created per row of the two matches. *)
Definition relates_rows (ns : list Perception) (id tgt : string) (w : float)
    : list Relates :=
  flat_map (fun p1 => map (fun p2 => mkRelates p1 p2 w)
                          (match_bundle_id tgt ns))
           (match_bundle_id id ns).

Definition create_relates (id tgt : string) (w : float)
    (g : graph) : unit * graph :=
  (tt, mkGraph (nodes g)
               (relationships g ++ relates_rows (nodes g) id tgt w)).

(** [for rel in relations: session.run(...)]. *)
Fixpoint for_rel_in (id : string) (relations : list relation) : M unit :=
  match relations with
  | [] => ret tt
  | rel :: rest =>
      run (create_relates id (target rel) (weight rel)) ;;
      for_rel_in id rest
  end.

Definition store_perception (id : string) (embeddings : list float)
    (relations : list relation) : M unit :=
  run (create_perception id embeddings) ;;
  for_rel_in id relations.

(** The [WITH] expression of [activate_perceptions]:
    [reduce(dot = 0.0, i IN range(0, size(p.embedding)-1) |
            dot + p.embedding[i] * $query[i])]. *)
Definition similarity_of (p_embedding query : list float) : Cypher.value :=
  Cypher.reduce (Some 0%float)
    (Cypher.range 0 (Cypher.size p_embedding - 1))
    (fun dot i =>
       Cypher.add dot
         (Cypher.mul (Cypher.index p_embedding i) (Cypher.index query i))).

(** [MATCH (p:Perception) WITH p, ... as similarity]. *)
Definition match_with (query : list float) (ns : list Perception)
    : list (nat * Perception * Cypher.value) :=
  map (fun ip => (fst ip, snd ip, similarity_of (embedding (snd ip)) query))
      (scan ns).

(** [WHERE similarity > 0.5] on one row: the row survives, with its
    now certainly non-null similarity, or is dropped. *)
Definition where_similarity (r : nat * Perception * Cypher.value)
    : list (nat * Perception * float) :=
  match r with
  | (i, p, sim) =>
      match Cypher.where_keeps (Cypher.gt sim (Some 0.5%float)), sim with
      | true, Some s => [(i, p, s)]
      | _, _ => []
      end
  end.

(** Apply [f] to the node at position [i]. *)
Fixpoint alter (f : Perception -> Perception) (i : nat)
    (ns : list Perception) : list Perception :=
  match ns, i with
  | [], _ => []
  | p :: rest, O => f p :: rest
  | p :: rest, S j => p :: alter f j rest
  end.

(** [SET p.activation_count = p.activation_count + 1] for the node of one
    row. *)
Definition increment (p : Perception) : Perception :=
  mkPerception (bundle_id p) (embedding p) (activation_count p + 1)
               (confidence p).

Definition set_activation_count (ns : list Perception)
    (r : nat * Perception * float) : list Perception :=
  alter increment (fst (fst r)) ns.

(** [RETURN p.bundle_id, similarity]. *)
Definition return_row (r : nat * Perception * float) : string * float :=
  (bundle_id (snd (fst r)), snd r).

(** The whole statement of [activate_perceptions]: the rows that pass the
    [WHERE] all have their node updated, and only then are they ordered
    and cut to five. *)
Definition activate_statement (query : list float) (g : graph)
    : list (string * float) * graph :=
  let rows := flat_map where_similarity (match_with query (nodes g)) in
  let ns' := fold_left set_activation_count rows (nodes g) in
  (Cypher.limit 5 (Cypher.order_by_desc snd (map return_row rows)),
   mkGraph ns' (relationships g)).

(** [memories = [{'bundle_id': r['p.bundle_id'],
                  'similarity': r['similarity']} for r in result]]. *)
Definition activate_perceptions (query_embedding : list float)
    : M (list memory) :=
  result <- run (activate_statement query_embedding) ;;
  ret (map (fun r => mkMemory (fst r) (snd r)) result).

End PerceptionStore.

(* ================================================================== *)
(** * class PerceptionTrainer *)
(* ================================================================== *)

(** One training item: [{'id': ..., 'embedding': ..., 'relations': ...}]. *)
Record training_item : Type := mkItem {
  item_id : string;
  item_embedding : list float;
  item_relations : list relation
}.

(** One test query: [{'name': ..., 'embedding': ..., 'expected': ...}]. *)
Record test_query : Type := mkQuery {
  query_name : string;
  query_embedding : list float;
  query_expected : list string
}.

Module PerceptionTrainer.

Local Open Scope py_scope.

Fixpoint train (training_data : list training_item) : M unit :=
  match training_data with
  | [] => ret tt
  | data :: rest =>
      PerceptionStore.store_perception
        (item_id data) (item_embedding data) (item_relations data) ;;
      train rest
  end.

Definition _calculate_accuracy (activated : list memory)
    (expected : list string) : float :=
  match activated with
  | [] => 0%float
  | top_result :: _ =>
      if Py.contains expected (memory_bundle_id top_result)
      then 1%float else 0%float
  end.

(** The [for query in test_queries] loop, with [results] as it stands when
    the loop reaches the remaining queries. *)
Fixpoint for_query_in (test_queries : list test_query)
    (results : list float) : M (list float) :=
  match test_queries with
  | [] => ret results
  | query :: rest =>
      activated <-
        PerceptionStore.activate_perceptions (query_embedding query) ;;
      let accuracy :=
        _calculate_accuracy activated (query_expected query) in
      for_query_in rest (results ++ [accuracy])
  end.

Definition test (test_queries : list test_query) : M float :=
  results <- for_query_in test_queries [] ;;
  avg_accuracy <- lift (Py.truediv (Py.sum results) (Py.len results)) ;;
  ret avg_accuracy.

End PerceptionTrainer.

(* ================================================================== *)
(** * The demonstration data of the module *)
(* ================================================================== *)

Definition create_synthetic_data : list training_item :=
  [ mkItem "visual_cat" [0.8; 0.2; 0.9]%float
           [mkRelation "visual_animal" 0.9%float];
    mkItem "visual_dog" [0.7; 0.3; 0.8]%float
           [mkRelation "visual_animal" 0.8%float];
    mkItem "visual_animal" [0.6; 0.4; 0.7]%float [] ].

Definition create_test_queries : list test_query :=
  [ mkQuery "cat_query" [0.75; 0.25; 0.85]%float ["visual_cat"];
    mkQuery "dog_query" [0.65; 0.35; 0.75]%float ["visual_dog"];
    mkQuery "animal_query" [0.55; 0.45; 0.65]%float ["visual_animal"] ].

(* ================================================================== *)
(** * Vocabulary of the specification *)
(* ================================================================== *)

(** The raw dot product of two vectors, accumulated left to right from 0.0.
    It is meant for vectors of the same length. *)
Definition dot (e q : list float) : float :=
  fold_left (fun acc xy => (acc + fst xy * snd xy)%float) (combine e q) 0%float.

(** One step of the [reduce] of the similarity expression, on a natural
    index. *)
Definition dot_step (e q : list float) (acc : Cypher.value) (i : nat)
    : Cypher.value :=
  Cypher.add acc (Cypher.mul (nth_error e i) (nth_error q i)).

(** A perception is retained by a query when its similarity is a number
    strictly above the threshold 0.5. *)
Definition retains (query : list float) (p : Perception) : bool :=
  match PerceptionStore.similarity_of (embedding p) query with
  | Some s => (0.5 <? s)%float
  | None => false
  end.

(** What a query does to one node: the counter of a retained perception
    goes up by one, any other node is left as it is. *)
Definition activate_node (query : list float) (p : Perception) : Perception :=
  if retains query p then PerceptionStore.increment p else p.

(** A query row being turned into the dictionary Python builds from it. *)
Definition memory_of_row (r : string * float) : memory :=
  mkMemory (fst r) (snd r).

(** The rows that survive the [WHERE] of a query, for nodes numbered from
    [k]. *)
Definition surviving_rows (query : list float) (k : nat) (ns : list Perception)
    : list (nat * Perception * float) :=
  flat_map PerceptionStore.where_similarity
    (map (fun ip => (fst ip, snd ip,
                     PerceptionStore.similarity_of (embedding (snd ip)) query))
         (combine (seq k (List.length ns)) ns)).

(** The [(id, similarity)] pair of a perception, when it is retained. *)
Definition retained_memory (query : list float) (p : Perception) : list memory :=
  match PerceptionStore.similarity_of (embedding p) query with
  | Some s => if (0.5 <? s)%float then [mkMemory (bundle_id p) s] else []
  | None => []
  end.

(** The retained perceptions of a graph, in creation order. *)
Definition retained_memories (query : list float) (ns : list Perception)
    : list memory :=
  flat_map (retained_memory query) ns.

(** [a] comes no later than [b] in a descending order on [key]. *)
Definition desc_by {R : Type} (key : R -> float) (a b : R) : Prop :=
  (key b <=? key a)%float = true.

(** The key of [r] is a number above [c]; such keys are pairwise
    comparable. *)
Definition above_by {R : Type} (key : R -> float) (c : float) (r : R) : Prop :=
  (c <? key r)%float = true.

(** [a] ranks no lower than [b]. *)
Definition similarity_ge (a b : memory) : Prop :=
  (similarity b <=? similarity a)%float = true.

(** What a query hands back on a graph. *)
Definition returned (query : list float) (g : graph) : list memory :=
  map (fun r => mkMemory (fst r) (snd r))
      (fst (PerceptionStore.activate_statement query g)).

(** A perception is returned by a query when one of the rows handed back
    carries its id and its similarity. *)
Definition is_returned (query : list float) (g : graph) (p : Perception) : Prop :=
  exists m,
    In m (returned query g) /\
    memory_bundle_id m = bundle_id p /\
    PerceptionStore.similarity_of (embedding p) query = Some (similarity m).

(** Two nodes that agree on what a query reads: id and embedding. *)
Definition same_vector (p p' : Perception) : Prop :=
  bundle_id p' = bundle_id p /\ embedding p' = embedding p.

(** What one query changes in a node, and what it leaves alone: the counter
    moves by [k] when the node is retained, and nothing else moves. *)
Definition counted (query : list float) (k : Z) (p p' : Perception) : Prop :=
  bundle_id p' = bundle_id p /\
  embedding p' = embedding p /\
  confidence p' = confidence p /\
  activation_count p' = activation_count p + (if retains query p then k else 0).

(** A test query is a hit on a graph when the query returns something and
    the id of the first result is one of the expected ids. *)
Definition hit (g : graph) (q : test_query) : Prop :=
  exists top rest,
    returned (query_embedding q) g = top :: rest /\
    In (memory_bundle_id top) (query_expected q).

(** The arithmetic mean of a list of floats: their sum over their number. *)
Definition arithmetic_mean (xs : list float) : float :=
  (fold_left (fun acc x => acc + x) xs 0 / Py.float_of_int (Py.len xs))%float.

(** A perception with this id is in the graph. *)
Definition exists_perception (id : string) (ns : list Perception) : Prop :=
  exists p, In p ns /\ bundle_id p = id.

(** The node [store_perception] creates for a training item. *)
Definition new_perception (item : training_item) : Perception :=
  mkPerception (item_id item) (item_embedding item) 0 0.5%float.

(** The node at position [i] carries the id [id]. *)
Definition carries (ns : list Perception) (i : nat) (id : string) : Prop :=
  exists p, nth_error ns i = Some p /\ bundle_id p = id.

(** Every relationship joins two nodes that are in the graph. *)
Definition well_formed (g : graph) : Prop :=
  Forall (fun r => (start_node r < List.length (nodes g))%nat /\
                   (end_node r < List.length (nodes g))%nat)
         (relationships g).

(** A relationship as one relation of a [store_perception] call for [id]
    creates it among the nodes [ns]. *)
Definition created_by (ns : list Perception) (id : string)
    (relations : list relation) (r : Relates) : Prop :=
  exists rel,
    In rel relations /\
    carries ns (start_node r) id /\
    carries ns (end_node r) (target rel) /\
    rel_weight r = weight rel.

(** How many of the queries of a test retain a perception. *)
Definition activations (qs : list test_query) (p : Perception) : Z :=
  Z.of_nat
    (List.length (filter (fun q => retains (query_embedding q) p) qs)).

(** A node after all the queries of a test, one after the other. *)
Definition activate_all (qs : list test_query) (p : Perception) : Perception :=
  fold_left (fun p' q => activate_node (query_embedding q) p') qs p.

(** What a whole test changes in a node, and what it leaves alone. *)
Definition counted_by (qs : list test_query) (p p' : Perception) : Prop :=
  bundle_id p' = bundle_id p /\
  embedding p' = embedding p /\
  confidence p' = confidence p /\
  activation_count p' = activation_count p + activations qs p.

(** The first row of a result ranks no lower than any of the given rows. *)
Definition top_dominates (result candidates : list memory) : Prop :=
  match result with
  | [] => True
  | top :: _ => Forall (similarity_ge top) candidates
  end.

(* ================================================================== *)
(** * Sample graphs *)
(* ================================================================== *)

(** The graph after [train(create_synthetic_data())] on an empty database. *)
Definition demo_graph : graph :=
  final (PerceptionTrainer.train create_synthetic_data) empty_graph.

(** Six perceptions of one component each, stored in decreasing magnitude. *)
Definition six_items : list training_item :=
  [ mkItem "a" [6%float] []; mkItem "b" [5%float] [];
    mkItem "c" [4%float] []; mkItem "d" [3%float] [];
    mkItem "e" [2%float] []; mkItem "f" [1%float] [] ].

Definition six_graph : graph :=
  final (PerceptionTrainer.train six_items) empty_graph.

(** A perception of one component and one of three. *)
Definition mixed_graph : graph :=
  final (PerceptionTrainer.train
           [ mkItem "short" [1%float] [];
             mkItem "long" [1%float; 1%float; 1%float] [] ])
        empty_graph.

(** A single perception whose dot product with itself is exactly 0.5. *)
Definition half_graph : graph :=
  final (PerceptionTrainer.train [ mkItem "half" [0.5%float; 0.5%float] [] ])
        empty_graph.

(** Two perceptions, "a" then "b". *)
Definition pair_graph : graph :=
  final (PerceptionTrainer.train
           [ mkItem "a" [1%float] []; mkItem "b" [1%float] [] ])
        empty_graph.

(** An animal, then a cat related to it. *)
Definition linked_items : list training_item :=
  [ mkItem "visual_animal" [0.6; 0.4; 0.7]%float [];
    mkItem "visual_cat" [0.8; 0.2; 0.9]%float
           [mkRelation "visual_animal" 0.9%float] ].

Definition linked_graph : graph :=
  final (PerceptionTrainer.train linked_items) empty_graph.

(* ================================================================== *)
(** * Order facts about binary64 *)
(* ================================================================== *)

Section FloatOrder.

Local Open Scope float_scope.

Lemma SFcompare_swap (x y : spec_float) :
  SFcompare y x = option_map CompOpp (SFcompare x y).
Proof.
  destruct x as [sx | sx | | sx mx ex], y as [sy | sy | | sy my ey];
    simpl; try reflexivity;
    try (destruct sx; reflexivity); try (destruct sy; reflexivity);
    try (destruct sx, sy; reflexivity).
  change (Pos.compare_cont Eq my mx) with (Pos.compare my mx).
  change (Pos.compare_cont Eq mx my) with (Pos.compare mx my).
  rewrite (Z.compare_antisym ex ey), (Pos.compare_antisym mx my).
  destruct sx, sy; simpl; try reflexivity;
    destruct (ex ?= ey)%Z; simpl; try reflexivity;
    destruct (mx ?= my)%positive; reflexivity.
Qed.

(** [a < b] entails [a <= b]. *)
Lemma ltb_leb (a b : float) : (a <? b) = true -> (a <=? b) = true.
Proof.
  rewrite ltb_spec, leb_spec. unfold SFltb, SFleb.
  destruct (SFcompare (Prim2SF a) (Prim2SF b)) as [[ | | ] | ];
    intros H; try discriminate H; reflexivity.
Qed.

(** Two numbers above a common bound are comparable: when the first is not
    below the second, the second is at most the first. *)
Lemma not_ltb_leb (c x y : float) :
  (c <? x) = true -> (c <? y) = true ->
  (x <? y) = false -> (y <=? x) = true.
Proof.
  rewrite !ltb_spec, leb_spec. unfold SFltb, SFleb.
  rewrite (SFcompare_swap (Prim2SF x) (Prim2SF y)).
  intros Hx Hy.
  destruct (SFcompare (Prim2SF x) (Prim2SF y)) as [[ | | ] | ] eqn:E;
    simpl; intros H; try discriminate H; try reflexivity.
  exfalso.
  destruct (Prim2SF x), (Prim2SF y); simpl in E; try discriminate E;
    destruct (Prim2SF c); simpl in Hx, Hy; discriminate.
Qed.

Lemma SFleb_trans (x y z : spec_float) :
  SFleb x y = true -> SFleb y z = true -> SFleb x z = true.
Proof.
  unfold SFleb.
  destruct x as [sx | sx | | sx mx ex], y as [sy | sy | | sy my ey],
           z as [sz | sz | | sz mz ez]; simpl;
    try discriminate; try reflexivity;
    try (destruct sx; simpl; try discriminate; try reflexivity; fail);
    try (destruct sy; simpl; try discriminate; try reflexivity; fail);
    try (destruct sz; simpl; try discriminate; try reflexivity; fail);
    try (destruct sx, sy; simpl; try discriminate; try reflexivity; fail);
    try (destruct sx, sz; simpl; try discriminate; try reflexivity; fail);
    try (destruct sy, sz; simpl; try discriminate; try reflexivity; fail);
    try (destruct sx, sy, sz; simpl; try discriminate; try reflexivity; fail).
  change (Pos.compare_cont Eq mx my) with (Pos.compare mx my).
  change (Pos.compare_cont Eq my mz) with (Pos.compare my mz).
  change (Pos.compare_cont Eq mx mz) with (Pos.compare mx mz).
  destruct sx, sy, sz; simpl; try discriminate; try reflexivity;
    destruct (Z.compare_spec ex ey), (Z.compare_spec ey ez),
             (Z.compare_spec ex ez);
    try discriminate; try reflexivity; try lia;
    destruct (Pos.compare_spec mx my), (Pos.compare_spec my mz),
             (Pos.compare_spec mx mz);
    try discriminate; try reflexivity; try lia.
Qed.

Lemma leb_trans (a b c : float) :
  (a <=? b) = true -> (b <=? c) = true -> (a <=? c) = true.
Proof. rewrite !leb_spec. apply SFleb_trans. Qed.

End FloatOrder.

(* ================================================================== *)
(** * The similarity expression *)
(* ================================================================== *)

Section Similarity.

Import PerceptionStore.

Lemma index_of_nat {A : Type} (l : list A) (i : nat) :
  Cypher.index l (Z.of_nat i) = nth_error l i.
Proof.
  unfold Cypher.index.
  destruct (0 <=? Z.of_nat i) eqn:E.
  - now rewrite Nat2Z.id.
  - apply Z.leb_gt in E. lia.
Qed.

Lemma range_of_size {A : Type} (l : list A) :
  Cypher.range 0 (Cypher.size l - 1) = map Z.of_nat (seq 0 (List.length l)).
Proof.
  unfold Cypher.range, Cypher.size.
  replace (Z.to_nat (Z.of_nat (List.length l) - 1 - 0 + 1)) with (List.length l) by lia.
  apply map_ext. intros k. lia.
Qed.

Lemma similarity_of_fold (e q : list float) :
  similarity_of e q = fold_left (dot_step e q) (seq 0 (List.length e)) (Some 0%float).
Proof.
  unfold similarity_of, Cypher.reduce. rewrite range_of_size.
  generalize (Some 0%float) as acc. generalize (seq 0 (List.length e)) as idx.
  induction idx as [ | i idx IH]; intros acc; simpl.
  - reflexivity.
  - rewrite !index_of_nat. apply IH.
Qed.

Lemma firstn_snoc {A : Type} (l : list A) (n : nat) (x : A) :
  nth_error l n = Some x -> firstn (S n) l = firstn n l ++ [x].
Proof.
  revert l. induction n as [ | n IH]; intros [ | y l] H; simpl in *;
    try discriminate.
  - now inversion H.
  - f_equal. now apply IH.
Qed.

Lemma combine_snoc {A B : Type} (l : list A) (l' : list B) (x : A) (y : B) :
  List.length l = List.length l' ->
  combine (l ++ [x]) (l' ++ [y]) = combine l l' ++ [(x, y)].
Proof.
  revert l'. induction l as [ | a l IH]; intros [ | b l'] H; simpl in *;
    try discriminate; try reflexivity.
  f_equal. apply IH. now inversion H.
Qed.

Lemma dot_snoc (e q : list float) (x y : float) :
  List.length e = List.length q ->
  dot (e ++ [x]) (q ++ [y]) = (dot e q + x * y)%float.
Proof.
  intros H. unfold dot. rewrite combine_snoc by exact H.
  rewrite fold_left_app. reflexivity.
Qed.

(** After the first [n] indices the accumulator holds the dot product of
    the two prefixes, or null as soon as the query has run out. *)
Lemma reduce_prefix (e q : list float) (n : nat) :
  (n <= List.length e)%nat ->
  fold_left (dot_step e q) (seq 0 n) (Some 0%float) =
  if (n <=? List.length q)%nat then Some (dot (firstn n e) (firstn n q)) else None.
Proof.
  induction n as [ | n IH]; intros Hn.
  - reflexivity.
  - rewrite seq_S, fold_left_app, IH by lia.
    cbn [fold_left Nat.add].
    destruct (nth_error e n) as [x | ] eqn:Ex.
    2:{ apply nth_error_None in Ex. lia. }
    destruct (Nat.leb_spec (S n) (List.length q)) as [Hq | Hq].
    + destruct (nth_error q n) as [y | ] eqn:Ey.
      2:{ apply nth_error_None in Ey. lia. }
      destruct (Nat.leb_spec n (List.length q)) as [_ | ?]; [ | lia].
      unfold dot_step. rewrite Ex, Ey. cbn [Cypher.mul Cypher.add].
      rewrite (firstn_snoc e n x Ex), (firstn_snoc q n y Ey).
      rewrite dot_snoc; [reflexivity | ].
      rewrite !length_firstn. lia.
    + assert (Ey : nth_error q n = None) by (apply nth_error_None; lia).
      unfold dot_step. rewrite Ex, Ey.
      destruct (n <=? List.length q)%nat; reflexivity.
Qed.

Lemma dot_firstn (e q : list float) :
  dot e (firstn (List.length e) q) = dot e q.
Proof. unfold dot. now rewrite <- combine_firstn_l. Qed.

(** The closed form of the [reduce]: the dot product with the leading
    components of the query, or null when the query is too short. *)
Lemma similarity_of_dot (e q : list float) :
  similarity_of e q =
  if (List.length e <=? List.length q)%nat then Some (dot e q) else None.
Proof.
  rewrite similarity_of_fold, reduce_prefix by lia.
  rewrite firstn_all, dot_firstn. reflexivity.
Qed.

End Similarity.

(* ================================================================== *)
(** * ORDER BY ... DESC *)
(* ================================================================== *)

Section OrderByDesc.

Context {R : Type} (key : R -> float).


Lemma insert_desc_perm (r : R) (l : list R) :
  Permutation (Cypher.insert_desc key r l) (r :: l).
Proof.
  induction l as [ | r' l IH]; simpl.
  - apply Permutation_refl.
  - destruct (key r <? key r')%float.
    + eapply perm_trans; [apply perm_skip, IH | apply perm_swap].
    + apply Permutation_refl.
Qed.

Lemma order_by_desc_perm (rows : list R) :
  Permutation (Cypher.order_by_desc key rows) rows.
Proof.
  induction rows as [ | r rows IH]; simpl.
  - apply perm_nil.
  - eapply perm_trans; [apply insert_desc_perm | apply perm_skip, IH].
Qed.

Lemma insert_desc_sorted (c : float) (r : R) (l : list R) :
  above_by key c r -> Forall (above_by key c) l ->
  StronglySorted (desc_by key) l ->
  StronglySorted (desc_by key) (Cypher.insert_desc key r l).
Proof.
  intros Hr Hl Hs. induction Hs as [ | r' l Hs IH Hall]; simpl.
  - constructor; constructor.
  - inversion Hl as [ | ? ? Hr' Hl']; subst.
    destruct (key r <? key r')%float eqn:E.
    + constructor; [apply IH, Hl' | ].
      eapply Permutation_Forall;
        [apply Permutation_sym, insert_desc_perm | ].
      constructor; [ | exact Hall].
      apply ltb_leb, E.
    + assert (Hrr' : desc_by key r r') by (eapply not_ltb_leb; eassumption).
      constructor; [constructor; assumption | ].
      constructor; [exact Hrr' | ].
      eapply Forall_impl; [ | exact Hall].
      intros z Hz. unfold desc_by in *. eapply leb_trans; eassumption.
Qed.

Lemma order_by_desc_sorted (c : float) (rows : list R) :
  Forall (above_by key c) rows ->
  StronglySorted (desc_by key) (Cypher.order_by_desc key rows).
Proof.
  induction 1 as [ | r rows Hr Hrows IH]; simpl.
  - constructor.
  - apply (insert_desc_sorted c); [exact Hr | | exact IH].
    eapply Permutation_Forall;
      [apply Permutation_sym, order_by_desc_perm | exact Hrows].
Qed.

End OrderByDesc.

Lemma StronglySorted_map {A B : Type} (f : A -> B)
    (RA : A -> A -> Prop) (RB : B -> B -> Prop) (l : list A) :
  (forall a b, RA a b -> RB (f a) (f b)) ->
  StronglySorted RA l -> StronglySorted RB (map f l).
Proof.
  intros Hf. induction 1 as [ | a l Hs IH Hall]; simpl; constructor.
  - exact IH.
  - apply Forall_map. eapply Forall_impl; [ | exact Hall].
    intros b. apply Hf.
Qed.

(* ================================================================== *)
(** * The statement of [activate_perceptions] in closed form *)
(* ================================================================== *)

Section ActivateStatement.

Import PerceptionStore.

Variable query : list float.

Lemma surviving_rows_cons (k : nat) (p : Perception) (ns : list Perception) :
surviving_rows query k (p :: ns) =
where_similarity (k, p, similarity_of (embedding p) query)
  ++ surviving_rows query (S k) ns.
Proof. reflexivity. Qed.

Lemma where_similarity_cases (i : nat) (p : Perception) :
where_similarity (i, p, similarity_of (embedding p) query) =
if retains query p
then match similarity_of (embedding p) query with
     | Some s => [(i, p, s)]
     | None => []
     end
else [].
Proof.
unfold where_similarity, retains.
destruct (similarity_of (embedding p) query) as [s | ]; simpl.
- destruct (0.5 <? s)%float; reflexivity.
- reflexivity.
Qed.

Lemma alter_at_length (f : Perception -> Perception)
  (pre : list Perception) (p : Perception) (rest : list Perception) :
alter f (List.length pre) (pre ++ p :: rest) = pre ++ f p :: rest.
Proof.
induction pre as [ | x pre IH]; simpl.
- reflexivity.
- now rewrite IH.
Qed.

(** The [SET] clause, run over the surviving rows, increments exactly the
  retained nodes. *)
Lemma set_rows_from (ns pre : list Perception) :
fold_left set_activation_count (surviving_rows query (List.length pre) ns) (pre ++ ns) =
pre ++ map (activate_node query) ns.
Proof.
revert pre. induction ns as [ | p ns IH]; intros pre.
- reflexivity.
- rewrite surviving_rows_cons, fold_left_app, where_similarity_cases.
  cbn [map]. unfold activate_node at 1.
  assert (Hnext : forall p',
    fold_left set_activation_count (surviving_rows query (S (List.length pre)) ns)
              (pre ++ p' :: ns) =
    pre ++ p' :: map (activate_node query) ns).
  { intros p'.
    replace (S (List.length pre)) with (List.length (pre ++ [p']))
      by (rewrite length_app; simpl; lia).
    replace (pre ++ p' :: ns) with ((pre ++ [p']) ++ ns)
      by (rewrite <- app_assoc; reflexivity).
    rewrite IH. rewrite <- app_assoc. reflexivity. }
  destruct (retains query p) eqn:Hr.
  + unfold retains in Hr.
    destruct (similarity_of (embedding p) query) as [s | ];
      [ | discriminate Hr].
    cbn [fold_left]. unfold set_activation_count at 2. cbn [fst].
    rewrite alter_at_length. apply Hnext.
  + cbn [fold_left]. apply Hnext.
Qed.

(** The [RETURN] clause, over the surviving rows, lists the retained
  perceptions in creation order. *)
Lemma return_rows_from (ns : list Perception) (k : nat) :
map memory_of_row (map return_row (surviving_rows query k ns)) =
retained_memories query ns.
Proof.
revert k. induction ns as [ | p ns IH]; intros k.
- reflexivity.
- rewrite surviving_rows_cons, !map_app, IH. unfold retained_memories. cbn [flat_map].
  f_equal. rewrite where_similarity_cases.
  unfold retained_memory, retains.
  destruct (similarity_of (embedding p) query) as [s | ]; [ | reflexivity].
  destruct (0.5 <? s)%float; reflexivity.
Qed.

Lemma activate_statement_closed (g : graph) :
activate_statement query g =
(firstn 5 (Cypher.order_by_desc snd
             (map return_row (surviving_rows query 0 (nodes g)))),
 mkGraph (map (activate_node query) (nodes g)) (relationships g)).
Proof.
unfold activate_statement, Cypher.limit.
change (flat_map where_similarity (match_with query (nodes g)))
  with (surviving_rows query 0 (nodes g)).
f_equal. f_equal. apply (set_rows_from (nodes g) []).
Qed.

Lemma activate_perceptions_closed (g : graph) :
activate_perceptions query g =
(Py.Ok (returned query g),
 mkGraph (map (activate_node query) (nodes g)) (relationships g)).
Proof.
unfold activate_perceptions, bind, run, ret, returned.
rewrite activate_statement_closed. reflexivity.
Qed.

(** The rows handed back are the first five of the descending rearrangement
  of the retained perceptions. *)
Lemma returned_closed (g : graph) :
returned query g =
firstn 5 (map memory_of_row
            (Cypher.order_by_desc snd
               (map return_row (surviving_rows query 0 (nodes g))))).
Proof.
unfold returned. rewrite activate_statement_closed. cbn [fst].
rewrite firstn_map. reflexivity.
Qed.

Lemma retained_memory_above (p : Perception) :
Forall (above_by similarity 0.5%float) (retained_memory query p).
Proof.
unfold retained_memory.
destruct (similarity_of (embedding p) query) as [s | ]; [ | constructor].
destruct (0.5 <? s)%float eqn:E; constructor; [exact E | constructor].
Qed.

Lemma retained_memories_above (ns : list Perception) :
Forall (above_by similarity 0.5%float) (retained_memories query ns).
Proof.
unfold retained_memories. induction ns as [ | p ns IH]; simpl.
- constructor.
- apply Forall_app. split; [apply retained_memory_above | exact IH].
Qed.

End ActivateStatement.

(* ================================================================== *)
(** * The similarity query *)
(* ================================================================== *)

Lemma In_retained_memory (query : list float) (p : Perception) (m : memory) :
  In m (retained_memory query p) <->
  memory_bundle_id m = bundle_id p /\
  PerceptionStore.similarity_of (embedding p) query = Some (similarity m) /\
  (0.5 <? similarity m)%float = true.
Proof.
  unfold retained_memory.
  destruct (PerceptionStore.similarity_of (embedding p) query) as [s | ].
  - destruct (0.5 <? s)%float eqn:E; simpl; split.
    + intros [<- | []]. simpl. auto.
    + intros (Hid & Hs & _). left. destruct m as [i s']; simpl in *.
      inversion Hs. subst. reflexivity.
    + intros [].
    + intros (_ & Hs & Hgt). inversion Hs; subst. congruence.
  - simpl. split; [intros [] | intros (_ & Hs & _); discriminate Hs].
Qed.

Lemma retained_memory_nil (query : list float) (p : Perception) :
  retains query p = false -> retained_memory query p = [].
Proof.
  unfold retains, retained_memory.
  destruct (PerceptionStore.similarity_of (embedding p) query) as [s | ];
    [ | reflexivity].
  intros ->. reflexivity.
Qed.

Lemma retained_memories_nil (query : list float) (ns : list Perception) :
  (forall p, In p ns -> retains query p = false) ->
  retained_memories query ns = [].
Proof.
  unfold retained_memories. induction ns as [ | p ns IH]; intros H; simpl.
  - reflexivity.
  - rewrite retained_memory_nil, IH; auto using in_eq, in_cons.
Qed.

(** The ranking before the cut to five rows. *)
Lemma ranking_exists (query : list float) (g : graph) :
  exists ranked : list memory,
    returned query g = firstn 5 ranked /\
    Permutation ranked (retained_memories query (nodes g)) /\
    StronglySorted similarity_ge ranked.
Proof.
  exists (map memory_of_row
            (Cypher.order_by_desc snd
               (map PerceptionStore.return_row
                    (surviving_rows query 0 (nodes g))))).
  split; [apply returned_closed | split].
  - rewrite <- (return_rows_from query (nodes g) 0).
    apply Permutation_map, order_by_desc_perm.
  - apply (StronglySorted_map memory_of_row (desc_by snd)).
    + intros a b H. exact H.
    + apply (order_by_desc_sorted snd 0.5%float).
      pose proof (retained_memories_above query (nodes g)) as H.
      rewrite <- (return_rows_from query (nodes g) 0) in H.
      rewrite Forall_map in H. exact H.
Qed.

(** C1.  Whatever the query vector, [activate_perceptions] returns normally
    with the first five entries of a list [ranked] that is a rearrangement
    of the retained perceptions (those whose similarity is a number strictly
    above 0.5, each paired with its id), in descending order of similarity.
    The similarity of a perception is the raw dot product of its embedding
    with the query when both have the same length.  When no perception is
    retained the result is the empty list. *)
Theorem activate_perceptions_ranking (g : graph) (query : list float) :
  exists ranked : list memory,
    outcome (PerceptionStore.activate_perceptions query) g
      = Py.Ok (firstn 5 ranked) /\
    Permutation ranked (retained_memories query (nodes g)) /\
    StronglySorted similarity_ge ranked /\
    (forall m, In m ranked <->
       exists p, In p (nodes g) /\
         memory_bundle_id m = bundle_id p /\
         PerceptionStore.similarity_of (embedding p) query
           = Some (similarity m) /\
         (0.5 <? similarity m)%float = true) /\
    (forall p, In p (nodes g) ->
       List.length (embedding p) = List.length query ->
       PerceptionStore.similarity_of (embedding p) query
         = Some (dot (embedding p) query)) /\
    ((forall p, In p (nodes g) -> retains query p = false) ->
     outcome (PerceptionStore.activate_perceptions query) g = Py.Ok []).
Proof.
  destruct (ranking_exists query g) as (ranked & Hret & Hperm & Hsorted).
  assert (Hout : outcome (PerceptionStore.activate_perceptions query) g
                 = Py.Ok (firstn 5 ranked)).
  { unfold outcome. rewrite activate_perceptions_closed. cbn [fst].
    now rewrite Hret. }
  exists ranked. repeat split; try assumption.
  - intros Hm. apply (Permutation_in _ Hperm) in Hm.
    apply in_flat_map in Hm. destruct Hm as (p & Hp & Hm).
    exists p. split; [exact Hp | ]. apply In_retained_memory, Hm.
  - intros (p & Hp & Hm).
    apply (Permutation_in _ (Permutation_sym Hperm)).
    apply in_flat_map. exists p. split; [exact Hp | ].
    apply In_retained_memory, Hm.
  - intros p _ Hlen. rewrite similarity_of_dot, Hlen, Nat.leb_refl.
    reflexivity.
  - intros Hnone. rewrite Hout.
    rewrite (retained_memories_nil query (nodes g) Hnone) in Hperm.
    apply Permutation_sym, Permutation_nil in Hperm. now rewrite Hperm.
Qed.

(* ================================================================== *)
(** * What a query changes *)
(* ================================================================== *)

Lemma activate_node_counted (query : list float) (p : Perception) :
  counted query 1 p (activate_node query p).
Proof.
  unfold counted, activate_node.
  destruct (retains query p); simpl; repeat split; lia.
Qed.

Lemma Forall2_map_r {A B : Type} (P : A -> B -> Prop) (f : A -> B) (l : list A) :
  (forall a, P a (f a)) -> Forall2 P l (map f l).
Proof.
  intros H. induction l as [ | a l IH]; simpl; constructor; auto.
Qed.

Lemma In_firstn {A : Type} (n : nat) (l : list A) (x : A) :
  In x (firstn n l) -> In x l.
Proof.
  intros H. rewrite <- (firstn_skipn n l). apply in_or_app. now left.
Qed.

Lemma retains_is_returned (query : list float) (g : graph) (p : Perception) :
  (List.length (retained_memories query (nodes g)) <= 5)%nat ->
  In p (nodes g) -> retains query p = true -> is_returned query g p.
Proof.
  intros Hfew Hp Hr.
  destruct (ranking_exists query g) as (ranked & Hret & Hperm & _).
  unfold retains in Hr.
  destruct (PerceptionStore.similarity_of (embedding p) query) as [s | ] eqn:Es;
    [ | discriminate Hr].
  exists (mkMemory (bundle_id p) s). simpl. repeat split; [ | exact Es].
  rewrite Hret, firstn_all2
    by (rewrite (Permutation_length Hperm); exact Hfew).
  apply (Permutation_in _ (Permutation_sym Hperm)).
  apply in_flat_map. exists p. split; [exact Hp | ].
  apply In_retained_memory. simpl. auto.
Qed.

Lemma is_returned_retains (query : list float) (g : graph) (p : Perception) :
  is_returned query g p -> retains query p = true.
Proof.
  intros (m & Hm & _ & Hs).
  destruct (ranking_exists query g) as (ranked & Hret & Hperm & _).
  rewrite Hret in Hm. apply In_firstn in Hm.
  apply (Permutation_in _ Hperm), in_flat_map in Hm.
  destruct Hm as (p' & _ & Hm). apply In_retained_memory in Hm.
  unfold retains. rewrite Hs. apply Hm.
Qed.

(** C2, as the code has it.  A query adds one to the [activation_count] of
    exactly the retained perceptions (similarity strictly above 0.5),
    whether or not they survive the cut to five rows, and changes neither
    the id, the embedding nor the confidence of any node, nor any
    relationship.  A returned perception is always a retained one, and when
    at most five perceptions are retained every retained one is returned. *)
Theorem activation_count_frame (g : graph) (query : list float) :
  relationships (final (PerceptionStore.activate_perceptions query) g)
    = relationships g /\
  Forall2 (counted query 1) (nodes g)
    (nodes (final (PerceptionStore.activate_perceptions query) g)) /\
  (forall p, is_returned query g p -> retains query p = true) /\
  ((List.length (retained_memories query (nodes g)) <= 5)%nat ->
   forall p, In p (nodes g) ->
     retains query p = true -> is_returned query g p).
Proof.
  unfold final. rewrite activate_perceptions_closed. cbn [snd nodes relationships].
  split; [reflexivity | ].
  split; [apply Forall2_map_r, activate_node_counted | ].
  split.
  - intros p. apply is_returned_retains.
  - intros Hfew p. now apply retains_is_returned.
Qed.

(** C2, as stated, fails once more than five perceptions clear the
    threshold: on six perceptions of similarities 6, 5, 4, 3, 2 and 1 the
    query returns the first five, and the counter of the sixth, which is not
    returned, still goes from 0 to 1. *)
Lemma activation_count_beyond_limit :
  outcome (PerceptionStore.activate_perceptions [1%float]) six_graph
    = Py.Ok [ mkMemory "a" 6; mkMemory "b" 5; mkMemory "c" 4;
              mkMemory "d" 3; mkMemory "e" 2 ] /\
  nth_error (nodes six_graph) 5
    = Some (mkPerception "f" [1%float] 0 0.5) /\
  nth_error (nodes (final (PerceptionStore.activate_perceptions [1%float])
                          six_graph)) 5
    = Some (mkPerception "f" [1%float] 1 0.5) /\
  ~ is_returned [1%float] six_graph (mkPerception "f" [1%float] 0 0.5).
Proof.
  split; [vm_compute; reflexivity | ].
  split; [vm_compute; reflexivity | ].
  split; [vm_compute; reflexivity | ].
  intros (m & Hm & Hid & _).
  vm_compute in Hm.
  repeat (destruct Hm as [<- | Hm]; [discriminate Hid | ]).
  exact Hm.
Qed.

(* ================================================================== *)
(** * The ranking does not read the counters *)
(* ================================================================== *)

Lemma return_rows_same_vectors (query : list float) (ns ns' : list Perception) :
  Forall2 same_vector ns ns' ->
  forall k,
    map PerceptionStore.return_row (surviving_rows query k ns') =
    map PerceptionStore.return_row (surviving_rows query k ns).
Proof.
  induction 1 as [ | p p' ns ns' [Hid He] _ IH]; intros k.
  - reflexivity.
  - rewrite !surviving_rows_cons, !map_app, IH. f_equal.
    rewrite He. unfold PerceptionStore.where_similarity.
    destruct (PerceptionStore.similarity_of (embedding p) query) as [s | ];
      simpl; [ | reflexivity].
    destruct (0.5 <? s)%float; simpl; [ | reflexivity].
    unfold PerceptionStore.return_row. simpl. now rewrite Hid.
Qed.

Lemma returned_same_vectors (query : list float) (g g' : graph) :
  Forall2 same_vector (nodes g) (nodes g') ->
  returned query g' = returned query g.
Proof.
  intros H. rewrite !returned_closed.
  now rewrite (return_rows_same_vectors query _ _ H).
Qed.

Lemma activate_node_same_vector (query : list float) (p : Perception) :
  same_vector p (activate_node query p).
Proof.
  unfold same_vector, activate_node. destruct (retains query p); auto.
Qed.

Lemma same_vector_trans (p p' p'' : Perception) :
  same_vector p p' -> same_vector p' p'' -> same_vector p p''.
Proof. unfold same_vector. intros [-> ->] [-> ->]. auto. Qed.

Lemma Forall2_same_vector_step (query : list float) (ns ns' : list Perception) :
  Forall2 same_vector ns ns' ->
  Forall2 same_vector ns (map (activate_node query) ns').
Proof.
  induction 1 as [ | p p' ns ns' Hp _ IH]; simpl; constructor.
  - eapply same_vector_trans; [exact Hp | apply activate_node_same_vector].
  - exact IH.
Qed.

Lemma Forall2_same_vector_refl (ns : list Perception) :
  Forall2 same_vector ns ns.
Proof. induction ns; constructor; unfold same_vector; auto. Qed.

Lemma activate_node_twice_counted (query : list float) (p : Perception) :
  counted query 2 p (activate_node query (activate_node query p)).
Proof.
  unfold counted, activate_node.
  destruct (retains query p) eqn:E.
  - change (retains query (PerceptionStore.increment p))
      with (retains query p).
    rewrite E. simpl. repeat split; lia.
  - rewrite E. repeat split; lia.
Qed.

(** C9.  On any graph and for any query vector, a second call of
    [activate_perceptions] with the same query returns the same list of
    (id, similarity) rows as the first, although the two calls together leave
    the counter of every retained perception two higher. *)
Theorem query_twice_same_ranking (g : graph) (query : list float) :
  outcome (PerceptionStore.activate_perceptions query)
          (final (PerceptionStore.activate_perceptions query) g)
    = outcome (PerceptionStore.activate_perceptions query) g /\
  outcome (PerceptionStore.activate_perceptions query) g
    = Py.Ok (returned query g) /\
  Forall2 (counted query 2) (nodes g)
    (nodes (final (PerceptionStore.activate_perceptions query)
                  (final (PerceptionStore.activate_perceptions query) g))).
Proof.
  unfold outcome, final. rewrite !activate_perceptions_closed.
  cbn [fst snd nodes]. split; [ | split; [reflexivity | ]].
  - f_equal. apply returned_same_vectors. cbn [nodes].
    apply Forall2_same_vector_step, Forall2_same_vector_refl.
  - rewrite map_map. apply Forall2_map_r. intros p.
    apply activate_node_twice_counted.
Qed.

(* ================================================================== *)
(** * The trainer's test *)
(* ================================================================== *)

Lemma contains_In (xs : list string) (x : string) :
  Py.contains xs x = true <-> In x xs.
Proof.
  unfold Py.contains. rewrite existsb_exists. split.
  - intros (y & Hy & E). apply String.eqb_eq in E. now subst.
  - intros H. exists x. split; [exact H | apply String.eqb_refl].
Qed.

(** The score of one query is 1.0 on a hit and 0.0 otherwise, an empty
    result included. *)
Lemma calculate_accuracy_hit (g : graph) (q : test_query) :
  hit g q ->
  PerceptionTrainer._calculate_accuracy
    (returned (query_embedding q) g) (query_expected q) = 1%float.
Proof.
  intros (top & rest & -> & Hin). simpl.
  apply contains_In in Hin. now rewrite Hin.
Qed.

Lemma calculate_accuracy_miss (g : graph) (q : test_query) :
  ~ hit g q ->
  PerceptionTrainer._calculate_accuracy
    (returned (query_embedding q) g) (query_expected q) = 0%float.
Proof.
  intros Hmiss. unfold hit in Hmiss.
  destruct (returned (query_embedding q) g) as [ | top rest]; simpl.
  - reflexivity.
  - destruct (Py.contains (query_expected q) (memory_bundle_id top)) eqn:E.
    + exfalso. apply Hmiss. exists top, rest. split; [reflexivity | ].
      now apply contains_In.
    + reflexivity.
Qed.

(** The loop of [test]: it appends one score per query, each the score of
    the query on the graph the test started from, since the counters that
    earlier queries moved are not read by later ones. *)
Lemma for_query_in_scores (g : graph) (qs : list test_query) :
  forall (results : list float) (g' : graph),
    Forall2 same_vector (nodes g) (nodes g') ->
    outcome (PerceptionTrainer.for_query_in qs results) g' =
    Py.Ok (results ++
           map (fun q => PerceptionTrainer._calculate_accuracy
                           (returned (query_embedding q) g)
                           (query_expected q)) qs).
Proof.
  induction qs as [ | q qs IH]; intros results g' Hsame.
  - simpl. now rewrite app_nil_r.
  - unfold outcome in *. cbn [PerceptionTrainer.for_query_in].
    unfold bind at 1. rewrite activate_perceptions_closed.
    rewrite IH by (cbn [nodes]; now apply Forall2_same_vector_step).
    rewrite (returned_same_vectors _ g g' Hsame).
    rewrite <- app_assoc. reflexivity.
Qed.

Lemma sum_from_float (xs : list float) (a : float) :
  fold_left Py.add xs (Py.Float a)
  = Py.Float (fold_left (fun acc x => (acc + x)%float) xs a).
Proof.
  revert a. induction xs as [ | x xs IH]; intros a; simpl.
  - reflexivity.
  - apply IH.
Qed.

(** On a list that is not empty, [sum(xs) / len(xs)] returns the arithmetic
    mean. *)
Lemma truediv_sum_len (xs : list float) :
  xs <> [] ->
  Py.truediv (Py.sum xs) (Py.len xs) = Py.Ok (arithmetic_mean xs).
Proof.
  destruct xs as [ | x xs]; [congruence | intros _].
  unfold Py.truediv, Py.sum, arithmetic_mean.
  assert (Hlen : (Py.len (x :: xs) =? 0) = false).
  { unfold Py.len. simpl List.length. apply Z.eqb_neq. lia. }
  rewrite Hlen. cbn [fold_left Py.add].
  change (Py.float_of_int 0) with 0%float.
  rewrite sum_from_float. reflexivity.
Qed.

(** C3.  On a list of queries that is not empty, [test] returns the
    arithmetic mean of one score per query, in order: 1.0 when the query is
    a hit (its top-ranked result carries one of the expected ids), 0.0 when
    it is not, which covers a query with no result at all. *)
Theorem test_mean_accuracy (g : graph) (qs : list test_query) :
  qs <> [] ->
  exists accs : list float,
    outcome (PerceptionTrainer.test qs) g = Py.Ok (arithmetic_mean accs) /\
    Forall2 (fun q a => (hit g q -> a = 1%float) /\
                        (~ hit g q -> a = 0%float)) qs accs.
Proof.
  intros Hqs.
  exists (map (fun q => PerceptionTrainer._calculate_accuracy
                          (returned (query_embedding q) g)
                          (query_expected q)) qs).
  split.
  - pose proof (for_query_in_scores g qs [] g
                  (Forall2_same_vector_refl (nodes g))) as Hloop.
    unfold outcome in *. unfold PerceptionTrainer.test, bind at 1.
    destruct (PerceptionTrainer.for_query_in qs [] g) as [r gf].
    cbn [fst] in Hloop. subst r. cbn [app].
    unfold bind, lift, ret. rewrite truediv_sum_len; [reflexivity | ].
    destruct qs; [congruence | discriminate].
  - apply Forall2_map_r. intros q. split.
    + apply calculate_accuracy_hit.
    + apply calculate_accuracy_miss.
Qed.

(** C3 at the module's own data: the three demonstration queries, on the
    graph trained from the demonstration items. *)
Lemma test_mean_accuracy_witness :
  exists accs : list float,
    outcome (PerceptionTrainer.test create_test_queries) demo_graph
      = Py.Ok (arithmetic_mean accs) /\
    Forall2 (fun q a => (hit demo_graph q -> a = 1%float) /\
                        (~ hit demo_graph q -> a = 0%float))
            create_test_queries accs.
Proof.
  apply (test_mean_accuracy demo_graph create_test_queries).
  discriminate.
Defined.

(** C4, as stated, fails: on an empty list [test] does divide zero by zero,
    and what it raises is Python's [ZeroDivisionError], not an [EmptyInput]
    error. *)
Lemma test_empty_raises_zero_division :
  Py.sum [] = Py.Int 0 /\
  Py.len (@nil float) = 0 /\
  outcome (PerceptionTrainer.test []) empty_graph
    = Py.truediv (Py.Int 0) 0 /\
  outcome (PerceptionTrainer.test []) empty_graph
    = Py.Raise "ZeroDivisionError" /\
  outcome (PerceptionTrainer.test []) empty_graph
    <> Py.Raise "EmptyInput".
Proof.
  repeat split. vm_compute. discriminate.
Qed.

(** C4, as the code has it.  On an empty list of queries [test] touches
    nothing in the graph and raises [ZeroDivisionError], out of the division
    of the integer 0 by the integer 0; it returns no value, so no NaN. *)
Theorem test_empty_queries (g : graph) :
  PerceptionTrainer.test [] g = (Py.Raise Py.ZeroDivisionError, g) /\
  outcome (PerceptionTrainer.test []) g = Py.truediv (Py.sum []) (Py.len (@nil float)) /\
  Py.sum [] = Py.Int 0 /\
  Py.len (@nil float) = 0.
Proof. repeat split. Qed.

(* ================================================================== *)
(** * Queries and embeddings of different lengths *)
(* ================================================================== *)

Lemma similarity_of_longer (e query : list float) :
  (List.length e <= List.length query)%nat ->
  PerceptionStore.similarity_of e query
  = Some (dot e (firstn (List.length e) query)).
Proof.
  intros H. rewrite similarity_of_dot, dot_firstn.
  apply Nat.leb_le in H. now rewrite H.
Qed.

Lemma similarity_of_shorter (e query : list float) :
  (List.length query < List.length e)%nat ->
  PerceptionStore.similarity_of e query = None.
Proof.
  intros H. rewrite similarity_of_dot.
  apply Nat.leb_gt in H. now rewrite H.
Qed.

(** C5, as stated, fails: with a one-component and a three-component
    perception in the graph, a two-component query raises nothing.  It
    scores the short perception on the first component of the query alone
    and leaves the long one out of the result. *)
Lemma mismatched_query_returns :
  map embedding (nodes mixed_graph)
    = [ [1%float]; [1%float; 1%float; 1%float] ] /\
  outcome (PerceptionStore.activate_perceptions [1%float; 100%float])
          mixed_graph
    = Py.Ok [ mkMemory "short" 1 ] /\
  outcome (PerceptionStore.activate_perceptions [1%float; 100%float])
          mixed_graph
    <> Py.Raise "DimensionMismatch".
Proof.
  split; [vm_compute; reflexivity | ].
  split; [vm_compute; reflexivity | ].
  vm_compute. discriminate.
Qed.

(** C5, as the code has it.  The query never raises.  Against a perception
    whose embedding is shorter than the query, the similarity is the dot
    product with the leading components of the query; against one whose
    embedding is longer, the similarity is null, and the perception is
    neither retained nor returned. *)
Theorem dimension_mismatch_is_silent (g : graph) (query : list float) :
  (exists ms, outcome (PerceptionStore.activate_perceptions query) g
              = Py.Ok ms) /\
  (forall p, In p (nodes g) ->
     ((List.length (embedding p) < List.length query)%nat ->
      PerceptionStore.similarity_of (embedding p) query
      = Some (dot (embedding p)
                  (firstn (List.length (embedding p)) query))) /\
     ((List.length query < List.length (embedding p))%nat ->
      PerceptionStore.similarity_of (embedding p) query = None /\
      retains query p = false /\
      ~ is_returned query g p)).
Proof.
  split.
  - exists (returned query g). unfold outcome.
    now rewrite activate_perceptions_closed.
  - intros p _. split; intros Hlen.
    + apply similarity_of_longer. lia.
    + pose proof (similarity_of_shorter _ _ Hlen) as Hnull.
      assert (Hr : retains query p = false)
        by (unfold retains; now rewrite Hnull).
      repeat split; try assumption.
      intros H. apply is_returned_retains in H. congruence.
Qed.

(** C10.  When the query is strictly longer than an embedding, the
    similarity is the dot product of the embedding with the first
    [size(embedding)] components of the query, and any other query with the
    same leading components gives that perception the same similarity, and
    so the same place among the retained perceptions. *)
Theorem longer_query_is_truncated (p : Perception) (query : list float) :
  (List.length (embedding p) < List.length query)%nat ->
  PerceptionStore.similarity_of (embedding p) query
    = Some (dot (embedding p) (firstn (List.length (embedding p)) query)) /\
  (forall query',
     firstn (List.length (embedding p)) query'
       = firstn (List.length (embedding p)) query ->
     PerceptionStore.similarity_of (embedding p) query'
       = PerceptionStore.similarity_of (embedding p) query /\
     retained_memory query' p = retained_memory query p /\
     activate_node query' p = activate_node query p).
Proof.
  intros Hlen. split; [apply similarity_of_longer; lia | ].
  intros query' Hpre.
  assert (Hsim : PerceptionStore.similarity_of (embedding p) query'
                 = PerceptionStore.similarity_of (embedding p) query).
  { assert (Hlen' : (List.length (embedding p) <= List.length query')%nat).
    { apply (f_equal (@List.length float)) in Hpre.
      rewrite !length_firstn in Hpre. lia. }
    rewrite !similarity_of_longer by lia. now rewrite Hpre. }
  split; [exact Hsim | ].
  unfold retained_memory, activate_node, retains. rewrite Hsim. auto.
Qed.

(** C10 at a perception of one component and the query (1, 100). *)
Lemma longer_query_is_truncated_witness :
  PerceptionStore.similarity_of [1%float] [1%float; 100%float]
    = Some (dot [1%float] (firstn 1 [1%float; 100%float])) /\
  (forall query',
     firstn 1 query' = firstn 1 [1%float; 100%float] ->
     PerceptionStore.similarity_of [1%float] query'
       = PerceptionStore.similarity_of [1%float] [1%float; 100%float] /\
     retained_memory query' (mkPerception "short" [1%float] 0 0.5)
       = retained_memory [1%float; 100%float]
                         (mkPerception "short" [1%float] 0 0.5) /\
     activate_node query' (mkPerception "short" [1%float] 0 0.5)
       = activate_node [1%float; 100%float]
                       (mkPerception "short" [1%float] 0 0.5)).
Proof.
  apply (longer_query_is_truncated
           (mkPerception "short" [1%float] 0 0.5) [1%float; 100%float]).
  simpl. lia.
Defined.

(* ================================================================== *)
(** * A perception queried with its own embedding *)
(* ================================================================== *)

(** C6, as stated, fails: the threshold 0.5 is below 1, yet the perception
    (0.5, 0.5), whose dot product with itself is exactly 0.5, is not
    returned by a query with its own embedding. *)
Lemma own_embedding_not_returned :
  nodes half_graph = [ mkPerception "half" [0.5%float; 0.5%float] 0 0.5 ] /\
  dot [0.5%float; 0.5%float] [0.5%float; 0.5%float] = 0.5%float /\
  outcome (PerceptionStore.activate_perceptions [0.5%float; 0.5%float])
          half_graph
    = Py.Ok [].
Proof. repeat split. Qed.

(** C6, as the code has it.  Queried with its own embedding [e], a stored
    perception has similarity [dot e e] and is retained exactly when that
    number is strictly above 0.5.  It is returned only if retained, and it
    is returned whenever it is retained and at most five perceptions are. *)
Theorem own_embedding_match (g : graph) (p : Perception) :
  In p (nodes g) ->
  PerceptionStore.similarity_of (embedding p) (embedding p)
    = Some (dot (embedding p) (embedding p)) /\
  retains (embedding p) p
    = (0.5 <? dot (embedding p) (embedding p))%float /\
  (is_returned (embedding p) g p ->
   (0.5 <? dot (embedding p) (embedding p))%float = true) /\
  ((0.5 <? dot (embedding p) (embedding p))%float = true ->
   (List.length (retained_memories (embedding p) (nodes g)) <= 5)%nat ->
   is_returned (embedding p) g p).
Proof.
  intros Hp.
  assert (Hs : PerceptionStore.similarity_of (embedding p) (embedding p)
               = Some (dot (embedding p) (embedding p))).
  { rewrite similarity_of_dot, Nat.leb_refl. reflexivity. }
  assert (Hr : retains (embedding p) p
               = (0.5 <? dot (embedding p) (embedding p))%float).
  { unfold retains. now rewrite Hs. }
  repeat split; try assumption.
  - intros H. rewrite <- Hr. exact (is_returned_retains _ g p H).
  - intros Hgt Hfew. apply retains_is_returned; try assumption.
    now rewrite Hr.
Qed.

(** C6 at the cat of the demonstration graph. *)
Lemma own_embedding_match_witness :
  PerceptionStore.similarity_of [0.8; 0.2; 0.9]%float [0.8; 0.2; 0.9]%float
    = Some (dot [0.8; 0.2; 0.9]%float [0.8; 0.2; 0.9]%float) /\
  retains [0.8; 0.2; 0.9]%float
          (mkPerception "visual_cat" [0.8; 0.2; 0.9]%float 0 0.5)
    = (0.5 <? dot [0.8; 0.2; 0.9]%float [0.8; 0.2; 0.9]%float)%float /\
  (is_returned [0.8; 0.2; 0.9]%float demo_graph
               (mkPerception "visual_cat" [0.8; 0.2; 0.9]%float 0 0.5) ->
   (0.5 <? dot [0.8; 0.2; 0.9]%float [0.8; 0.2; 0.9]%float)%float = true) /\
  ((0.5 <? dot [0.8; 0.2; 0.9]%float [0.8; 0.2; 0.9]%float)%float = true ->
   (List.length (retained_memories [0.8; 0.2; 0.9]%float (nodes demo_graph))
    <= 5)%nat ->
   is_returned [0.8; 0.2; 0.9]%float demo_graph
               (mkPerception "visual_cat" [0.8; 0.2; 0.9]%float 0 0.5)).
Proof.
  apply (own_embedding_match demo_graph
           (mkPerception "visual_cat" [0.8; 0.2; 0.9]%float 0 0.5)).
  simpl. left. reflexivity.
Defined.

(* ================================================================== *)
(** * Storing perceptions *)
(* ================================================================== *)

Section StorePerception.

Import PerceptionStore.

Lemma for_rel_in_closed (id : string) (relations : list relation) :
forall g : graph,
  for_rel_in id relations g =
  (Py.Ok tt,
   mkGraph (nodes g)
     (relationships g ++
      flat_map (fun rel => relates_rows (nodes g) id (target rel) (weight rel))
               relations)).
Proof.
induction relations as [ | rel rest IH]; intros g.
- simpl. rewrite app_nil_r. destruct g; reflexivity.
- cbn [for_rel_in]. unfold bind at 1, run, create_relates.
  rewrite IH. cbn [nodes relationships flat_map].
  rewrite <- app_assoc. reflexivity.
Qed.

Lemma store_perception_closed (id : string) (e : list float)
  (relations : list relation) (g : graph) :
store_perception id e relations g =
(Py.Ok tt,
 mkGraph (nodes g ++ [mkPerception id e 0 0.5%float])
   (relationships g ++
    flat_map (fun rel =>
                relates_rows (nodes g ++ [mkPerception id e 0 0.5%float])
                             id (target rel) (weight rel))
             relations)).
Proof.
unfold store_perception, bind, run, create_perception.
rewrite for_rel_in_closed. reflexivity.
Qed.

Lemma scan_snoc (ns : list Perception) (p : Perception) :
scan (ns ++ [p]) = scan ns ++ [(List.length ns, p)].
Proof.
unfold scan. rewrite length_app. simpl List.length.
rewrite Nat.add_1_r, seq_S. simpl.
apply combine_snoc. apply length_seq.
Qed.

Lemma match_bundle_id_snoc (id : string) (ns : list Perception) (p : Perception) :
match_bundle_id id (ns ++ [p]) =
match_bundle_id id ns
  ++ (if String.eqb (bundle_id p) id then [List.length ns] else []).
Proof.
unfold match_bundle_id. rewrite scan_snoc, filter_app, map_app. simpl.
destruct (String.eqb (bundle_id p) id); reflexivity.
Qed.

Lemma filter_none {A : Type} (f : A -> bool) (l : list A) :
(forall x, In x l -> f x = false) -> filter f l = [].
Proof.
induction l as [ | x l IH]; intros H; simpl.
- reflexivity.
- rewrite (H x (in_eq x l)). apply IH. intros y Hy. apply H, in_cons, Hy.
Qed.

Lemma match_bundle_id_absent (id : string) (ns : list Perception) :
~ exists_perception id ns -> match_bundle_id id ns = [].
Proof.
intros Habs. unfold match_bundle_id.
rewrite filter_none; [reflexivity | ].
intros [i p] Hip. simpl.
destruct (String.eqb (bundle_id p) id) eqn:E; [ | reflexivity].
exfalso. apply Habs. exists p. split.
- unfold scan in Hip. eapply in_combine_r, Hip.
- now apply String.eqb_eq.
Qed.

Lemma match_bundle_id_present (id : string) (ns : list Perception) :
exists_perception id ns -> match_bundle_id id ns <> [].
Proof.
induction ns as [ | p ns IH] using rev_ind; intros (p0 & Hp & Hid) Hnil.
- destruct Hp.
- rewrite match_bundle_id_snoc in Hnil.
  apply app_eq_nil in Hnil. destruct Hnil as [Hns Hlast].
  apply in_app_or in Hp. destruct Hp as [Hp | [-> | []]].
  + apply IH; [ | exact Hns]. exists p0. auto.
  + rewrite Hid, String.eqb_refl in Hlast. discriminate Hlast.
Qed.

End StorePerception.

(** C7, as stated, fails: storing the id "a" twice raises nothing and
    overwrites nothing; the graph ends with two perceptions under "a". *)
Lemma duplicate_id_two_nodes :
  outcome (PerceptionStore.store_perception "a" [1%float] [] ;;
           PerceptionStore.store_perception "a" [2%float] [])%py
          empty_graph
    = Py.Ok tt /\
  nodes (final (PerceptionStore.store_perception "a" [1%float] [] ;;
                PerceptionStore.store_perception "a" [2%float] [])%py
               empty_graph)
    = [ mkPerception "a" [1%float] 0 0.5;
        mkPerception "a" [2%float] 0 0.5 ].
Proof. split; reflexivity. Qed.

(** C7, as the code has it.  Two calls of [store_perception] with the same
    id both return normally; the graph keeps every node it had and gains two
    nodes under that id, one per call, at two different positions. *)
Theorem store_perception_duplicate_id (g : graph) (id : string)
    (e1 e2 : list float) (r1 r2 : list relation) :
  outcome (PerceptionStore.store_perception id e1 r1 ;;
           PerceptionStore.store_perception id e2 r2)%py g
    = Py.Ok tt /\
  nodes (final (PerceptionStore.store_perception id e1 r1 ;;
                PerceptionStore.store_perception id e2 r2)%py g)
    = nodes g ++ [ mkPerception id e1 0 0.5; mkPerception id e2 0 0.5 ] /\
  PerceptionStore.match_bundle_id id
    (nodes (final (PerceptionStore.store_perception id e1 r1 ;;
                   PerceptionStore.store_perception id e2 r2)%py g))
    = PerceptionStore.match_bundle_id id (nodes g)
        ++ [ List.length (nodes g); S (List.length (nodes g)) ].
Proof.
  unfold outcome, final, bind.
  rewrite (store_perception_closed id e1 r1 g).
  rewrite store_perception_closed. cbn [fst snd nodes].
  split; [reflexivity | ].
  rewrite <- app_assoc. split; [reflexivity | ].
  change (nodes g ++ [mkPerception id e1 0 0.5] ++ [mkPerception id e2 0 0.5])
    with (nodes g ++ [mkPerception id e1 0 0.5; mkPerception id e2 0 0.5]).
  replace (nodes g ++ [mkPerception id e1 0 0.5; mkPerception id e2 0 0.5])
    with ((nodes g ++ [mkPerception id e1 0 0.5])
            ++ [mkPerception id e2 0 0.5])
    by (rewrite <- app_assoc; reflexivity).
  rewrite !match_bundle_id_snoc.
  cbn [bundle_id]. rewrite String.eqb_refl, length_app.
  simpl List.length. rewrite Nat.add_1_r, <- app_assoc. reflexivity.
Qed.

Lemma relates_rows_absent (ns : list Perception) (id tgt : string) (w : float) :
  ~ exists_perception tgt ns ->
  PerceptionStore.relates_rows ns id tgt w = [].
Proof.
  intros Habs. unfold PerceptionStore.relates_rows.
  rewrite (match_bundle_id_absent tgt ns Habs).
  induction (PerceptionStore.match_bundle_id id ns); simpl; auto.
Qed.

Lemma relates_rows_present (ns : list Perception) (id tgt : string) (w : float) :
  exists_perception id ns -> exists_perception tgt ns ->
  PerceptionStore.relates_rows ns id tgt w <> [].
Proof.
  intros Hid Htgt. unfold PerceptionStore.relates_rows.
  apply match_bundle_id_present in Hid, Htgt.
  destruct (PerceptionStore.match_bundle_id id ns) as [ | p1 l1];
    [congruence | ].
  destruct (PerceptionStore.match_bundle_id tgt ns) as [ | p2 l2];
    [congruence | ].
  simpl. discriminate.
Qed.

(** C8, as stated, fails: with "a" and "b" in the graph, storing a second
    "a" related to "b" creates two relationships, and one of them starts at
    the older "a" (position 0), not at the new node (position 2). *)
Lemma relation_from_older_node :
  pair_graph
    = mkGraph [ mkPerception "a" [1%float] 0 0.5;
                mkPerception "b" [1%float] 0 0.5 ] [] /\
  PerceptionStore.store_perception "a" [2%float] [mkRelation "b" 0.5]
                                   pair_graph
    = (Py.Ok tt,
       mkGraph [ mkPerception "a" [1%float] 0 0.5;
                 mkPerception "b" [1%float] 0 0.5;
                 mkPerception "a" [2%float] 0 0.5 ]
               [ mkRelates 0 1 0.5; mkRelates 2 1 0.5 ]).
Proof. split; reflexivity. Qed.

(** C8, as the code has it.  [store_perception] returns normally and adds
    the new node; each relation then adds one relationship, with the given
    weight, for every pair of a node carrying the new id and a node carrying
    the target id.  A relation whose target id is carried by no node adds
    nothing and raises nothing; one whose target exists adds at least one
    relationship; and when the new id was not in the graph before and the
    target id is carried by exactly one node, it adds exactly one, from the
    new node to that target. *)
Theorem store_perception_relations (g : graph) (id : string)
    (e : list float) (relations : list relation) :
  outcome (PerceptionStore.store_perception id e relations) g = Py.Ok tt /\
  nodes (final (PerceptionStore.store_perception id e relations) g)
    = nodes g ++ [mkPerception id e 0 0.5] /\
  relationships (final (PerceptionStore.store_perception id e relations) g)
    = relationships g ++
      flat_map (fun rel =>
                  PerceptionStore.relates_rows
                    (nodes g ++ [mkPerception id e 0 0.5])
                    id (target rel) (weight rel))
               relations /\
  (forall rel,
     ~ exists_perception (target rel) (nodes g ++ [mkPerception id e 0 0.5]) ->
     PerceptionStore.relates_rows (nodes g ++ [mkPerception id e 0 0.5])
       id (target rel) (weight rel) = []) /\
  (forall rel,
     exists_perception (target rel) (nodes g ++ [mkPerception id e 0 0.5]) ->
     PerceptionStore.relates_rows (nodes g ++ [mkPerception id e 0 0.5])
       id (target rel) (weight rel) <> []) /\
  (forall rel t,
     ~ exists_perception id (nodes g) ->
     PerceptionStore.match_bundle_id (target rel)
       (nodes g ++ [mkPerception id e 0 0.5]) = [t] ->
     PerceptionStore.relates_rows (nodes g ++ [mkPerception id e 0 0.5])
       id (target rel) (weight rel)
     = [mkRelates (List.length (nodes g)) t (weight rel)]).
Proof.
  unfold outcome, final. rewrite store_perception_closed.
  cbn [fst snd nodes relationships].
  split; [reflexivity | ]. split; [reflexivity | ]. split; [reflexivity | ].
  split; [ | split].
  - intros rel. apply relates_rows_absent.
  - intros rel. apply relates_rows_present.
    exists (mkPerception id e 0 0.5). split; [ | reflexivity].
    apply in_or_app. right. now left.
  - intros rel t Hfresh Htgt. unfold PerceptionStore.relates_rows.
    rewrite Htgt, match_bundle_id_snoc.
    rewrite (match_bundle_id_absent id (nodes g) Hfresh).
    cbn [bundle_id]. rewrite String.eqb_refl. reflexivity.
Qed.

(** The demonstration data stores the cat and the dog before the animal
    they are related to, so training creates no relationship at all. *)
Example demo_graph_has_no_relationship :
  relationships demo_graph = [].
Proof. reflexivity. Qed.

(** The cat query of the demonstration ranks the cat first. *)
Example demo_cat_query :
  exists s rest,
    outcome (PerceptionStore.activate_perceptions [0.75; 0.25; 0.85]%float)
            demo_graph
    = Py.Ok (mkMemory "visual_cat" s :: rest).
Proof. vm_compute. eexists. eexists. reflexivity. Qed.

(* ================================================================== *)
(** * Training *)
(* ================================================================== *)

Lemma train_closed (items : list training_item) :
  forall g : graph,
    exists added : list Relates,
      PerceptionTrainer.train items g =
      (Py.Ok tt,
       mkGraph (nodes g ++ map new_perception items)
               (relationships g ++ added)).
Proof.
  induction items as [ | item items IH]; intros g.
  - exists []. simpl. rewrite !app_nil_r. destruct g; reflexivity.
  - cbn [PerceptionTrainer.train]. unfold bind at 1.
    rewrite store_perception_closed.
    match goal with
    | |- context [PerceptionTrainer.train items ?g1] =>
        destruct (IH g1) as (added & ->)
    end.
    cbn [nodes relationships map].
    eexists. rewrite <- !app_assoc. reflexivity.
Qed.

(** X1.  [train] never raises.  It keeps every node of the graph as it is
    and appends one node per item, in the order of the items, each with the
    item's id and embedding, an [activation_count] of 0 and a [confidence]
    of 0.5; the relationships the graph had are all kept, in place. *)
Theorem train_appends_nodes (g : graph) (items : list training_item) :
  outcome (PerceptionTrainer.train items) g = Py.Ok tt /\
  nodes (final (PerceptionTrainer.train items) g)
    = nodes g ++ map new_perception items /\
  List.length (nodes (final (PerceptionTrainer.train items) g))
    = (List.length (nodes g) + List.length items)%nat /\
  firstn (List.length (relationships g))
         (relationships (final (PerceptionTrainer.train items) g))
    = relationships g.
Proof.
  unfold outcome, final.
  destruct (train_closed items g) as (added & ->). cbn [fst snd nodes relationships].
  split; [reflexivity | ]. split; [reflexivity | ]. split.
  - now rewrite length_app, length_map.
  - rewrite firstn_app, Nat.sub_diag, firstn_all. simpl. apply app_nil_r.
Qed.

(* ================================================================== *)
(** * The endpoints of relationships *)
(* ================================================================== *)

Lemma carries_snoc (ns : list Perception) (p : Perception) (i : nat)
    (id : string) :
  carries (ns ++ [p]) i id <->
  carries ns i id \/ (i = List.length ns /\ bundle_id p = id).
Proof.
  unfold carries. split.
  - intros (p0 & Hnth & Hid).
    destruct (Nat.lt_ge_cases i (List.length ns)) as [Hlt | Hge].
    + left. exists p0. rewrite nth_error_app1 in Hnth by exact Hlt. auto.
    + right. rewrite nth_error_app2 in Hnth by exact Hge.
      destruct (i - List.length ns)%nat as [ | k] eqn:E; simpl in Hnth.
      * inversion Hnth; subst. split; [lia | reflexivity].
      * destruct k; discriminate Hnth.
  - intros [(p0 & Hnth & Hid) | [-> Hid]].
    + exists p0. split; [ | exact Hid].
      rewrite nth_error_app1; [exact Hnth | ].
      apply nth_error_Some. congruence.
    + exists p. split; [ | exact Hid].
      rewrite nth_error_app2, Nat.sub_diag by lia. reflexivity.
Qed.

(** A [MATCH] on a [bundle_id] finds exactly the positions of the nodes
    that carry it. *)
Lemma match_bundle_id_carries (id : string) (ns : list Perception) (i : nat) :
  In i (PerceptionStore.match_bundle_id id ns) <-> carries ns i id.
Proof.
  induction ns as [ | p ns IH] using rev_ind.
  - simpl. split; [intros [] | ].
    intros (p & Hnth & _). destruct i; discriminate Hnth.
  - rewrite match_bundle_id_snoc, in_app_iff, carries_snoc, IH.
    destruct (String.eqb (bundle_id p) id) eqn:E; simpl.
    + apply String.eqb_eq in E. intuition auto.
    + apply String.eqb_neq in E. intuition auto.
Qed.

Lemma carries_lt (ns : list Perception) (i : nat) (id : string) :
  carries ns i id -> (i < List.length ns)%nat.
Proof.
  intros (p & Hnth & _). apply nth_error_Some. congruence.
Qed.

Lemma In_relates_rows (ns : list Perception) (id tgt : string) (w : float)
    (r : Relates) :
  In r (PerceptionStore.relates_rows ns id tgt w) <->
  carries ns (start_node r) id /\ carries ns (end_node r) tgt /\
  rel_weight r = w.
Proof.
  unfold PerceptionStore.relates_rows. rewrite in_flat_map. split.
  - intros (p1 & Hp1 & Hr). apply in_map_iff in Hr.
    destruct Hr as (p2 & <- & Hp2). simpl.
    apply match_bundle_id_carries in Hp1, Hp2. auto.
  - intros (H1 & H2 & Hw). exists (start_node r).
    split; [now apply match_bundle_id_carries | ].
    apply in_map_iff. exists (end_node r).
    split; [ | now apply match_bundle_id_carries].
    destruct r; simpl in *. now subst.
Qed.

(** X2.  After [store_perception], every relationship of the graph either
    was there before or was created by one of the relations of the call: it
    then starts at a node carrying the stored id, ends at a node carrying
    that relation's target id, and has that relation's weight.  Conversely,
    for each relation of the call, every such pair of nodes is joined by a
    relationship with that weight. *)
Theorem store_perception_endpoints (g : graph) (id : string)
    (e : list float) (relations : list relation) :
  Forall (fun r =>
            In r (relationships g) \/
            created_by
              (nodes (final (PerceptionStore.store_perception id e relations) g))
              id relations r)
         (relationships
            (final (PerceptionStore.store_perception id e relations) g)) /\
  Forall (fun rel =>
            forall r,
              carries
                (nodes (final (PerceptionStore.store_perception id e relations) g))
                (start_node r) id /\
              carries
                (nodes (final (PerceptionStore.store_perception id e relations) g))
                (end_node r) (target rel) /\
              rel_weight r = weight rel ->
              In r (relationships
                      (final (PerceptionStore.store_perception id e relations) g)))
         relations.
Proof.
  unfold final. rewrite store_perception_closed. cbn [snd nodes relationships].
  split; apply Forall_forall.
  - intros r Hr.
    apply in_app_or in Hr. destruct Hr as [Hr | Hr]; [now left | right].
    apply in_flat_map in Hr. destruct Hr as (rel & Hrel & Hr).
    apply In_relates_rows in Hr. exists rel. tauto.
  - intros rel Hrel r Hr. apply in_or_app. right.
    apply in_flat_map. exists rel. split; [exact Hrel | ].
    now apply In_relates_rows.
Qed.

(* ================================================================== *)
(** * What a test changes *)
(* ================================================================== *)

Lemma for_query_in_final (qs : list test_query) :
  forall (results : list float) (g : graph),
    final (PerceptionTrainer.for_query_in qs results) g =
    mkGraph (map (activate_all qs) (nodes g)) (relationships g).
Proof.
  induction qs as [ | q qs IH]; intros results g.
  - unfold final. simpl. rewrite map_id. destruct g; reflexivity.
  - unfold final in *. cbn [PerceptionTrainer.for_query_in].
    unfold bind at 1. rewrite activate_perceptions_closed, IH.
    cbn [nodes relationships]. rewrite map_map. reflexivity.
Qed.

Lemma test_final (qs : list test_query) (g : graph) :
  final (PerceptionTrainer.test qs) g =
  mkGraph (map (activate_all qs) (nodes g)) (relationships g).
Proof.
  rewrite <- (for_query_in_final qs [] g).
  unfold final, PerceptionTrainer.test, bind at 1.
  destruct (PerceptionTrainer.for_query_in qs [] g) as [[results | e] g'].
  - unfold bind, lift, ret. cbn [snd].
    destruct (Py.truediv (Py.sum results) (Py.len results)); reflexivity.
  - reflexivity.
Qed.

Lemma retains_activate_node (query query' : list float) (p : Perception) :
  retains query (activate_node query' p) = retains query p.
Proof.
  unfold activate_node. destruct (retains query' p); reflexivity.
Qed.

Lemma activations_activate_node (qs : list test_query) (query : list float)
    (p : Perception) :
  activations qs (activate_node query p) = activations qs p.
Proof.
  unfold activations. f_equal. f_equal.
  apply filter_ext. intros q. apply retains_activate_node.
Qed.

Lemma activate_all_counted (qs : list test_query) :
  forall p, counted_by qs p (activate_all qs p).
Proof.
  induction qs as [ | q qs IH]; intros p.
  - unfold counted_by, activations. simpl. repeat split. lia.
  - unfold activate_all. cbn [fold_left].
    destruct (IH (activate_node (query_embedding q) p))
      as (Hid & He & Hc & Hn).
    unfold activate_all in *.
    destruct (activate_node_counted (query_embedding q) p)
      as (Hid1 & He1 & Hc1 & Hn1).
    unfold counted_by. rewrite Hid, He, Hc, Hn, Hid1, He1, Hc1, Hn1.
    rewrite activations_activate_node.
    repeat split. unfold activations. cbn [filter].
    destruct (retains (query_embedding q) p); simpl List.length; lia.
Qed.

(** X3.  A test changes nothing in the graph but the counters: every node
    keeps its place, id, embedding and confidence, every relationship is
    kept, and the [activation_count] of a node goes up by the number of
    queries of the test that retain it.  This holds for the empty test as
    well, which raises. *)
Theorem test_counts_activations (g : graph) (qs : list test_query) :
  relationships (final (PerceptionTrainer.test qs) g) = relationships g /\
  Forall2 (counted_by qs) (nodes g)
          (nodes (final (PerceptionTrainer.test qs) g)).
Proof.
  rewrite test_final. cbn [nodes relationships].
  split; [reflexivity | ].
  apply Forall2_map_r, activate_all_counted.
Qed.

(* ================================================================== *)
(** * Relationships stay inside the graph *)
(* ================================================================== *)

Lemma well_formed_store_perception (g : graph) (id : string)
    (e : list float) (relations : list relation) :
  well_formed g ->
  well_formed (final (PerceptionStore.store_perception id e relations) g).
Proof.
  intros Hg. unfold well_formed, final in *.
  rewrite store_perception_closed. cbn [snd nodes relationships].
  apply Forall_app. split.
  - eapply Forall_impl; [ | exact Hg]. intros r [Hs He].
    rewrite length_app. simpl. lia.
  - apply Forall_forall. intros r Hr.
    apply in_flat_map in Hr. destruct Hr as (rel & _ & Hr).
    apply In_relates_rows in Hr. destruct Hr as (Hs & He & _).
    split; eapply carries_lt; eassumption.
Qed.

Lemma well_formed_train (items : list training_item) :
  forall g, well_formed g ->
            well_formed (final (PerceptionTrainer.train items) g).
Proof.
  induction items as [ | item items IH]; intros g Hg.
  - exact Hg.
  - unfold final in *. cbn [PerceptionTrainer.train]. unfold bind at 1.
    pose proof (well_formed_store_perception g (item_id item)
                  (item_embedding item) (item_relations item) Hg) as H1.
    unfold final in H1.
    destruct (PerceptionStore.store_perception (item_id item)
                (item_embedding item) (item_relations item) g)
      as [[[] | e] g1] eqn:E.
    + apply IH, H1.
    + rewrite store_perception_closed in E. discriminate E.
Qed.

Lemma well_formed_same_size (g : graph) (ns : list Perception) :
  List.length ns = List.length (nodes g) ->
  well_formed g -> well_formed (mkGraph ns (relationships g)).
Proof.
  intros Hlen Hg. unfold well_formed in *. cbn [nodes relationships].
  now rewrite Hlen.
Qed.

(** X4.  Relationships never dangle: in a graph whose relationships all
    join two of its nodes, they still do after any [store_perception], any
    [train], any [activate_perceptions] and any [test]. *)
Theorem well_formed_preserved (g : graph) :
  well_formed g ->
  (forall id e relations,
     well_formed (final (PerceptionStore.store_perception id e relations) g)) /\
  (forall items, well_formed (final (PerceptionTrainer.train items) g)) /\
  (forall query,
     well_formed (final (PerceptionStore.activate_perceptions query) g)) /\
  (forall qs, well_formed (final (PerceptionTrainer.test qs) g)).
Proof.
  intros Hg. repeat split.
  - intros. now apply well_formed_store_perception.
  - intros. now apply well_formed_train.
  - intros query. unfold final. rewrite activate_perceptions_closed.
    apply well_formed_same_size; [apply length_map | exact Hg].
  - intros qs. rewrite test_final.
    apply well_formed_same_size; [apply length_map | exact Hg].
Qed.

(** X4 at the graph of an animal and a cat related to it, which has one
    relationship. *)
Lemma well_formed_preserved_witness :
  relationships linked_graph = [mkRelates 1 0 0.9] /\
  ((forall id e relations,
      well_formed
        (final (PerceptionStore.store_perception id e relations) linked_graph)) /\
   (forall items,
      well_formed (final (PerceptionTrainer.train items) linked_graph)) /\
   (forall query,
      well_formed
        (final (PerceptionStore.activate_perceptions query) linked_graph)) /\
   (forall qs, well_formed (final (PerceptionTrainer.test qs) linked_graph))).
Proof.
  split; [reflexivity | ].
  apply (well_formed_preserved linked_graph).
  unfold well_formed. cbv. repeat constructor.
Defined.

(* ================================================================== *)
(** * Relations to perceptions that are not there yet *)
(* ================================================================== *)

Lemma flat_map_nil {A B : Type} (f : A -> list B) (l : list A) :
  (forall x, In x l -> f x = []) -> flat_map f l = [].
Proof.
  induction l as [ | x l IH]; intros H; simpl.
  - reflexivity.
  - rewrite (H x (in_eq x l)), IH; auto using in_cons.
Qed.

Lemma train_cons (item : training_item) (items : list training_item)
    (g : graph) :
  PerceptionTrainer.train (item :: items) g =
  PerceptionTrainer.train items
    (mkGraph (nodes g ++ [new_perception item])
       (relationships g ++
        flat_map (fun rel =>
                    PerceptionStore.relates_rows
                      (nodes g ++ [new_perception item])
                      (item_id item) (target rel) (weight rel))
                 (item_relations item))).
Proof.
  cbn [PerceptionTrainer.train]. unfold bind.
  rewrite store_perception_closed. reflexivity.
Qed.

(** X5.  [train] does not look ahead: when every relation of every item
    names a target that is carried by no node at the time the item is
    stored (not by the graph, not by an earlier item, not by the item
    itself), training creates no relationship at all, and raises nothing. *)
Theorem train_forward_relations_dropped (items : list training_item) :
  forall g : graph,
    (forall k item rel,
       nth_error items k = Some item ->
       In rel (item_relations item) ->
       ~ exists_perception (target rel)
           (nodes g ++ map new_perception (firstn (S k) items))) ->
    outcome (PerceptionTrainer.train items) g = Py.Ok tt /\
    relationships (final (PerceptionTrainer.train items) g) = relationships g.
Proof.
  induction items as [ | item items IH]; intros g H.
  - split; reflexivity.
  - unfold outcome, final in *. rewrite train_cons.
    rewrite flat_map_nil, app_nil_r.
    + match goal with
      | |- context [PerceptionTrainer.train items ?g1] =>
          destruct (IH g1) as [Hout Hrel]
      end; [ | split; [exact Hout | exact Hrel]].
      intros k it rel Hk Hrel. cbn [nodes].
      rewrite <- app_assoc.
      apply (H (S k) it rel Hk Hrel).
    + intros rel Hrel. apply relates_rows_absent.
      apply (H 0%nat item rel eq_refl Hrel).
Qed.

(** X5 at the demonstration data, where the cat and the dog are stored
    before the animal they name. *)
Lemma train_forward_relations_dropped_witness :
  outcome (PerceptionTrainer.train create_synthetic_data) empty_graph
    = Py.Ok tt /\
  relationships (final (PerceptionTrainer.train create_synthetic_data)
                       empty_graph)
    = relationships empty_graph.
Proof.
  apply (train_forward_relations_dropped create_synthetic_data empty_graph).
  intros k item rel Hk Hrel (p & Hp & Hid).
  destruct k as [ | [ | [ | k]]]; simpl in Hk;
    try (destruct k; discriminate Hk);
    inversion Hk; subst item; simpl in Hrel;
    repeat (destruct Hrel as [<- | Hrel]); try contradiction;
    simpl in Hp, Hid;
    repeat (destruct Hp as [<- | Hp]; [discriminate Hid | ]);
    exact Hp.
Defined.

(** X6.  A relation of a new perception to its own id is not dropped: the
    node is created before its relations are, so the call creates a
    relationship from the new node to itself. *)
Theorem store_perception_self_relation (g : graph) (id : string)
    (e : list float) (w : float) :
  ~ exists_perception id (nodes g) ->
  PerceptionStore.store_perception id e [mkRelation id w] g =
  (Py.Ok tt,
   mkGraph (nodes g ++ [mkPerception id e 0 0.5])
           (relationships g ++
            [mkRelates (List.length (nodes g)) (List.length (nodes g)) w])).
Proof.
  intros Hfresh. rewrite store_perception_closed.
  cbn [flat_map target weight]. unfold PerceptionStore.relates_rows.
  rewrite match_bundle_id_snoc, (match_bundle_id_absent id (nodes g) Hfresh).
  cbn [bundle_id]. rewrite String.eqb_refl. reflexivity.
Qed.

(** X6 on the empty graph. *)
Lemma store_perception_self_relation_witness :
  PerceptionStore.store_perception "a" [1%float] [mkRelation "a" 0.5]
                                   empty_graph =
  (Py.Ok tt,
   mkGraph ([] ++ [mkPerception "a" [1%float] 0 0.5])
           ([] ++ [mkRelates 0 0 0.5])).
Proof.
  apply (store_perception_self_relation empty_graph "a" [1%float] 0.5).
  intros (p & [] & _).
Defined.

(* ================================================================== *)
(** * The shape of a query result *)
(* ================================================================== *)

Lemma retained_memories_length (query : list float) (ns : list Perception) :
  List.length (retained_memories query ns)
  = List.length (filter (retains query) ns).
Proof.
  unfold retained_memories. induction ns as [ | p ns IH]; simpl.
  - reflexivity.
  - rewrite length_app, IH. unfold retained_memory, retains.
    destruct (PerceptionStore.similarity_of (embedding p) query) as [s | ];
      [ | reflexivity].
    destruct (0.5 <? s)%float; reflexivity.
Qed.

(** X7.  A query hands back as many rows as there are retained perceptions,
    up to five: never more than five, and fewer than five only when fewer
    perceptions are retained. *)
Theorem activate_perceptions_length (g : graph) (query : list float) :
  exists ms,
    outcome (PerceptionStore.activate_perceptions query) g = Py.Ok ms /\
    List.length ms
    = Nat.min 5 (List.length (filter (retains query) (nodes g))).
Proof.
  exists (returned query g). split.
  - unfold outcome. now rewrite activate_perceptions_closed.
  - destruct (ranking_exists query g) as (ranked & -> & Hperm & _).
    rewrite length_firstn, (Permutation_length Hperm).
    now rewrite retained_memories_length.
Qed.

Lemma leb_refl_above (c x : float) :
  (c <? x)%float = true -> (x <=? x)%float = true.
Proof.
  intros H. apply (not_ltb_leb c x x H H).
  rewrite ltb_spec in *. unfold SFltb in *.
  pose proof (SFcompare_swap (Prim2SF x) (Prim2SF x)) as Hs.
  destruct (SFcompare (Prim2SF x) (Prim2SF x)) as [[ | | ] | ];
    try reflexivity.
  discriminate Hs.
Qed.

(** X8.  The first row of a result has the highest similarity of all the
    retained perceptions, those cut off by the limit included: no retained
    perception has a similarity above it. *)
Theorem top_result_is_best (g : graph) (query : list float) :
  top_dominates (returned query g) (retained_memories query (nodes g)).
Proof.
  destruct (ranking_exists query g) as (ranked & Hret & Hperm & Hsorted).
  unfold top_dominates. rewrite Hret.
  destruct ranked as [ | top rest]; [exact I | ]. cbn [firstn].
  apply StronglySorted_inv in Hsorted. destruct Hsorted as [_ Hrest].
  eapply Permutation_Forall; [exact Hperm | ].
  constructor; [ | exact Hrest].
  unfold similarity_ge.
  pose proof (retained_memories_above query (nodes g)) as Habove.
  apply (Permutation_Forall (Permutation_sym Hperm)) in Habove.
  inversion Habove as [ | ? ? Htop _]; subst.
  exact (leb_refl_above _ _ Htop).
Qed.

Lemma activate_node_fixed (query : list float) (ns : list Perception) :
  (forall p, In p ns -> retains query p = false) ->
  map (activate_node query) ns = ns.
Proof.
  intros H. rewrite <- (map_id ns) at 2. apply map_ext_in.
  intros p Hp. unfold activate_node. now rewrite (H p Hp).
Qed.

Lemma returned_nil (query : list float) (g : graph) :
  (forall p, In p (nodes g) -> retains query p = false) ->
  returned query g = [].
Proof.
  intros H. destruct (ranking_exists query g) as (ranked & -> & Hperm & _).
  rewrite (retained_memories_nil query (nodes g) H) in Hperm.
  apply Permutation_sym, Permutation_nil in Hperm. now subst.
Qed.

Lemma retains_empty_query (p : Perception) : retains [] p = false.
Proof.
  unfold retains. rewrite similarity_of_dot.
  destruct (List.length (embedding p) <=? List.length (@nil float))%nat;
    [ | reflexivity].
  unfold dot. rewrite combine_nil. reflexivity.
Qed.

Lemma retains_empty_embedding (query : list float) (p : Perception) :
  embedding p = [] -> retains query p = false.
Proof.
  intros He. unfold retains. rewrite He. reflexivity.
Qed.

(** X9.  The empty query matches nothing: on any graph it returns the empty
    list and leaves the graph exactly as it was.  And a perception stored
    with an empty embedding is retained by no query at all. *)
Theorem empty_vectors_match_nothing (g : graph) :
  PerceptionStore.activate_perceptions [] g = (Py.Ok [], g) /\
  (forall query p, embedding p = [] -> retains query p = false).
Proof.
  split; [ | apply retains_empty_embedding].
  rewrite activate_perceptions_closed.
  rewrite returned_nil by (intros; apply retains_empty_query).
  rewrite activate_node_fixed by (intros; apply retains_empty_query).
  destruct g; reflexivity.
Qed.

Lemma activate_node_changes (query : list float) (p : Perception) :
  activate_node query p = p -> retains query p = false.
Proof.
  unfold activate_node. destruct (retains query p); [ | reflexivity].
  intros H. apply (f_equal activation_count) in H. simpl in H. lia.
Qed.

Lemma map_fixed_In {A : Type} (f : A -> A) (l : list A) :
  map f l = l -> forall x, In x l -> f x = x.
Proof.
  induction l as [ | a l IH]; intros H x Hx; [destruct Hx | ].
  simpl in H. injection H as Ha Hl.
  destruct Hx as [<- | Hx]; [exact Ha | now apply IH].
Qed.

(** X10.  A query returns the empty list exactly when it leaves the graph
    as it was: an empty answer moves no counter, and any other answer moves
    at least one. *)
Theorem empty_result_iff_unchanged (g : graph) (query : list float) :
  outcome (PerceptionStore.activate_perceptions query) g = Py.Ok [] <->
  final (PerceptionStore.activate_perceptions query) g = g.
Proof.
  unfold outcome, final. rewrite activate_perceptions_closed. cbn [fst snd].
  assert (Hnone : returned query g = [] <->
                  forall p, In p (nodes g) -> retains query p = false).
  { split; [ | apply returned_nil].
    intros Hnil p Hp.
    destruct (ranking_exists query g) as (ranked & Hret & Hperm & _).
    rewrite Hnil in Hret.
    destruct ranked as [ | m ranked]; [ | discriminate Hret].
    apply Permutation_nil in Hperm.
    destruct (retains query p) eqn:Hr; [ | reflexivity].
    exfalso. unfold retains in Hr.
    destruct (PerceptionStore.similarity_of (embedding p) query) as [s | ] eqn:Es;
      [ | discriminate Hr].
    assert (Hin : In (mkMemory (bundle_id p) s)
                     (retained_memories query (nodes g))).
    { apply in_flat_map. exists p. split; [exact Hp | ].
      apply In_retained_memory. simpl. auto. }
    rewrite Hperm in Hin. destruct Hin. }
  destruct Hnone as [Hnone1 Hnone2]. split.
  - intros H. inversion H as [Hnil].
    rewrite activate_node_fixed by exact (Hnone1 Hnil).
    destruct g; reflexivity.
  - intros H. f_equal. apply Hnone2. intros p Hp.
    apply activate_node_changes.
    apply (f_equal nodes) in H. cbn [nodes] in H.
    exact (map_fixed_In _ _ H p Hp).
Qed.

(* ================================================================== *)
(** * Storing, then querying *)
(* ================================================================== *)

Lemma memory_of_row_injective (l l' : list (string * float)) :
  map memory_of_row l = map memory_of_row l' -> l = l'.
Proof.
  revert l'. induction l as [ | [i s] l IH]; intros [ | [i' s'] l'] H;
    simpl in H; try discriminate H; [reflexivity | ].
  injection H as Hi Hs Hl. subst. f_equal. now apply IH.
Qed.

(** The answer of a query is determined by the retained perceptions, taken
    in creation order. *)
Lemma returned_ext (query : list float) (g g' : graph) :
  retained_memories query (nodes g') = retained_memories query (nodes g) ->
  returned query g' = returned query g.
Proof.
  intros H. rewrite !returned_closed. do 3 f_equal.
  apply memory_of_row_injective.
  now rewrite !(return_rows_from query _ 0).
Qed.

Lemma retained_memory_dot (query : list float) (id : string)
    (e : list float) (c : Z) (conf : float) :
  List.length e = List.length query ->
  (0.5 <? dot e query)%float = true ->
  retained_memory query (mkPerception id e c conf)
  = [mkMemory id (dot e query)].
Proof.
  intros Hlen Hgt. unfold retained_memory. cbn [embedding bundle_id].
  rewrite similarity_of_dot, Hlen, Nat.leb_refl, Hgt. reflexivity.
Qed.

(** X11.  Storing a perception adds it to the candidates of every later
    query, after all the older ones, and disturbs none of them.  If a query
    of the same length has a dot product above 0.5 with the new embedding
    and fewer than five older perceptions are retained, the new perception
    is returned with that dot product; if the query does not retain the new
    perception, its answer is the same as before the store.  The relations
    given to the store play no part. *)
Theorem store_then_activate (g : graph) (id : string) (e : list float)
    (relations : list relation) (query : list float) :
  retained_memories query
    (nodes (final (PerceptionStore.store_perception id e relations) g))
    = retained_memories query (nodes g)
        ++ retained_memory query (mkPerception id e 0 0.5) /\
  (List.length e = List.length query ->
   (0.5 <? dot e query)%float = true ->
   (List.length (retained_memories query (nodes g)) < 5)%nat ->
   In (mkMemory id (dot e query))
      (returned query
         (final (PerceptionStore.store_perception id e relations) g))) /\
  (retains query (mkPerception id e 0 0.5) = false ->
   returned query (final (PerceptionStore.store_perception id e relations) g)
   = returned query g).
Proof.
  assert (Hcand :
    retained_memories query
      (nodes (final (PerceptionStore.store_perception id e relations) g))
    = retained_memories query (nodes g)
        ++ retained_memory query (mkPerception id e 0 0.5)).
  { unfold final. rewrite store_perception_closed. cbn [snd nodes].
    unfold retained_memories. rewrite flat_map_app. simpl.
    now rewrite app_nil_r. }
  split; [exact Hcand | split].
  - intros Hlen Hgt Hfew.
    destruct (ranking_exists query
                (final (PerceptionStore.store_perception id e relations) g))
      as (ranked & -> & Hperm & _).
    rewrite Hcand, (retained_memory_dot query id e 0 0.5 Hlen Hgt) in Hperm.
    rewrite firstn_all2.
    + apply (Permutation_in _ (Permutation_sym Hperm)).
      apply in_or_app. right. now left.
    + rewrite (Permutation_length Hperm), length_app. simpl. lia.
  - intros Hr. apply returned_ext. rewrite Hcand.
    rewrite (retained_memory_nil query _ Hr). apply app_nil_r.
Qed.

(* ================================================================== *)
(** * Repeating a test *)
(* ================================================================== *)

Lemma test_outcome (qs : list test_query) (g : graph) :
  outcome (PerceptionTrainer.test qs) g =
  match outcome (PerceptionTrainer.for_query_in qs []) g with
  | Py.Ok results => Py.truediv (Py.sum results) (Py.len results)
  | Py.Raise e => Py.Raise e
  end.
Proof.
  unfold outcome, PerceptionTrainer.test, bind at 1.
  destruct (PerceptionTrainer.for_query_in qs [] g) as [[results | e] g'];
    [ | reflexivity].
  unfold bind, lift, ret. cbn [fst].
  destruct (Py.truediv (Py.sum results) (Py.len results)); reflexivity.
Qed.

Lemma test_outcome_same_vectors (qs : list test_query) (g g' : graph) :
  Forall2 same_vector (nodes g) (nodes g') ->
  outcome (PerceptionTrainer.test qs) g' = outcome (PerceptionTrainer.test qs) g.
Proof.
  intros H. rewrite !test_outcome.
  rewrite (for_query_in_scores g qs [] g' H).
  rewrite (for_query_in_scores g qs [] g (Forall2_same_vector_refl (nodes g))).
  reflexivity.
Qed.

Lemma activate_all_same_vector (qs : list test_query) (p : Perception) :
  same_vector p (activate_all qs p).
Proof.
  destruct (activate_all_counted qs p) as (Hid & He & _).
  split; assumption.
Qed.

(** X12.  The outcome of a test does not depend on what was asked before:
    after any earlier test, and after any earlier query, the same test
    gives the same score (or raises the same exception) as on the graph
    before them. *)
Theorem test_is_repeatable (g : graph) (qs : list test_query) :
  (forall qs',
     outcome (PerceptionTrainer.test qs)
             (final (PerceptionTrainer.test qs') g)
     = outcome (PerceptionTrainer.test qs) g) /\
  (forall query,
     outcome (PerceptionTrainer.test qs)
             (final (PerceptionStore.activate_perceptions query) g)
     = outcome (PerceptionTrainer.test qs) g).
Proof.
  split.
  - intros qs'. apply test_outcome_same_vectors.
    rewrite test_final. cbn [nodes].
    apply Forall2_map_r, activate_all_same_vector.
  - intros query. apply test_outcome_same_vectors.
    unfold final. rewrite activate_perceptions_closed. cbn [snd nodes].
    apply Forall2_map_r, activate_node_same_vector.
Qed.

(** X13.  A test of a single query returns exactly 1.0 when the query is a
    hit and exactly 0.0 when it is not. *)
Theorem test_single_query (g : graph) (q : test_query) :
  (hit g q -> outcome (PerceptionTrainer.test [q]) g = Py.Ok 1%float) /\
  (~ hit g q -> outcome (PerceptionTrainer.test [q]) g = Py.Ok 0%float).
Proof.
  assert (H : outcome (PerceptionTrainer.test [q]) g
              = Py.truediv
                  (Py.sum [PerceptionTrainer._calculate_accuracy
                             (returned (query_embedding q) g)
                             (query_expected q)]) 1).
  { rewrite test_outcome.
    rewrite (for_query_in_scores g [q] [] g
               (Forall2_same_vector_refl (nodes g))).
    reflexivity. }
  split; intros Hq; rewrite H.
  - rewrite (calculate_accuracy_hit g q Hq). reflexivity.
  - rewrite (calculate_accuracy_miss g q Hq). reflexivity.
Qed.

(* ================================================================== *)
(** * The five best *)
(* ================================================================== *)

Lemma StronglySorted_app_dominates {A : Type} (R : A -> A -> Prop)
    (l1 l2 : list A) :
  StronglySorted R (l1 ++ l2) ->
  Forall (fun a => Forall (R a) l2) l1.
Proof.
  induction l1 as [ | a l1 IH]; simpl; intros H.
  - constructor.
  - apply StronglySorted_inv in H. destruct H as [Hs Ha].
    constructor; [ | now apply IH].
    apply Forall_app in Ha. apply Ha.
Qed.

(** X14.  The rows a query hands back are the best ones: the retained
    perceptions split into the rows returned and the rows cut off by the
    limit, and every returned row ranks no lower than every row cut off. *)
Theorem returned_rows_are_the_best (g : graph) (query : list float) :
  exists cut : list memory,
    Permutation (returned query g ++ cut)
                (retained_memories query (nodes g)) /\
    Forall (fun m => Forall (similarity_ge m) cut) (returned query g).
Proof.
  destruct (ranking_exists query g) as (ranked & Hret & Hperm & Hsorted).
  exists (skipn 5 ranked). rewrite Hret. split.
  - now rewrite firstn_skipn.
  - apply StronglySorted_app_dominates. now rewrite firstn_skipn.
Qed.

(* ================================================================== *)
(** * Training in batches *)
(* ================================================================== *)

(** X15.  Training on a list of items in one call leaves the same graph,
    with the same outcome, as training on a first part of the list and
    then on the rest. *)
Theorem train_in_batches (items items' : list training_item) :
  forall g : graph,
    PerceptionTrainer.train (items ++ items') g =
    (PerceptionTrainer.train items ;; PerceptionTrainer.train items')%py g.
Proof.
  induction items as [ | item items IH]; intros g.
  - reflexivity.
  - cbn [app]. rewrite train_cons, IH. unfold bind.
    rewrite train_cons. reflexivity.
Qed.
